(** * The task-submission pipeline of the student deployment API

    A shallow embedding of [student_api/main.py] and
    [llm_agent/generator.py].  Python values decoded from JSON are an
    inductive type, the outside world (environment variables, the
    code-generation backend, the file system, the hosting backend, git and
    the evaluation callback) is a record of answers, and the handler runs in
    a small monad that logs every external call and carries a raised
    exception. *)

From Stdlib Require Import String Ascii List ZArith Bool Lia DecimalString.
Import ListNotations.
Open Scope string_scope.
Open Scope Z_scope.

(** ** Python values *)

Module Py.

(** The values [json.loads] produces.  A [str] is a Rocq string, one
    character per code point (code points above 255 are outside the model);
    a float is carried as its [repr], which no modelled operation looks
    into; a dict is the list of its items in insertion order, its keys
    distinct (a lookup takes the first item with the key). *)
#[warnings="-register-all"]
Inductive value :=
| VNone
| VBool (b : bool)
| VInt (n : Z)
| VFloat (repr : string)
| VStr (s : string)
| VList (items : list value)
| VDict (items : list (string * value)).

(** Exceptions, all of them instances of [Exception].  The built-in
    classes the code can meet are constructors (messages kept where the
    source writes them); [Raised] is an exception of a collaborator:
    requests, PyGithub, the operating system. *)
Inductive exn :=
| KeyError
| IndexError
| TypeError
| AttributeError
| ValueError (msg : string)
| RuntimeError (msg : string)
| Raised (cls : string) (msg : string).

Definition nl : string := String (ascii_of_nat 10) EmptyString.

Definition lookup (k : string) (items : list (string * value)) : option value :=
  option_map snd (find (fun kv => String.eqb (fst kv) k) items).

Definition has_key (k : string) (items : list (string * value)) : bool :=
  existsb (fun kv => String.eqb (fst kv) k) items.

(** [needle in hay] for two strs. *)
Fixpoint is_substring (needle hay : string) : bool :=
  String.prefix needle hay
  || match hay with
     | EmptyString => false
     | String _ rest => is_substring needle rest
     end.

(** [x == s] for a str [s]: only an equal str is equal to it. *)
Definition eq_str (x : value) (s : string) : bool :=
  match x with
  | VStr t => String.eqb t s
  | _ => false
  end.

(** [field in data]. *)
Definition contains (field : string) (data : value) : exn + bool :=
  match data with
  | VDict items => inr (has_key field items)
  | VList items => inr (existsb (fun x => eq_str x field) items)
  | VStr s => inr (is_substring field s)
  | _ => inl TypeError
  end.

(** [data[key]] for a str key. *)
Definition getitem (data : value) (key : string) : exn + value :=
  match data with
  | VDict items =>
      match lookup key items with
      | Some v => inr v
      | None => inl KeyError
      end
  | _ => inl TypeError
  end.

(** [data[0]]. *)
Definition getitem0 (data : value) : exn + value :=
  match data with
  | VList [] => inl IndexError
  | VList (x :: _) => inr x
  | VStr EmptyString => inl IndexError
  | VStr (String c _) => inr (VStr (String c EmptyString))
  | VDict _ => inl KeyError
  | _ => inl TypeError
  end.

(** [x == c] where [c] is what [os.getenv] returned: [None] or a str. *)
Definition eq_getenv (x : value) (c : option string) : bool :=
  match x, c with
  | VNone, None => true
  | VStr s, Some t => String.eqb s t
  | _, _ => false
  end.

(** [not c] for what [os.getenv] returned. *)
Definition not_getenv (c : option string) : bool :=
  match c with
  | None => true
  | Some EmptyString => true
  | Some _ => false
  end.

(** *** [str] and [repr] *)

Definition str_of_Z (n : Z) : string := NilZero.string_of_int (Z.to_int n).

Definition hex_digit (n : nat) : ascii :=
  match n with
  | 0 => "0" | 1 => "1" | 2 => "2" | 3 => "3" | 4 => "4" | 5 => "5"
  | 6 => "6" | 7 => "7" | 8 => "8" | 9 => "9" | 10 => "a" | 11 => "b"
  | 12 => "c" | 13 => "d" | 14 => "e" | _ => "f"
  end%nat%char.

Definition contains_char (c : ascii) (s : string) : bool :=
  existsb (Ascii.eqb c) (list_ascii_of_string s).

(** Code points below 256 that [repr] writes as they are. *)
Definition printable (n : nat) : bool :=
  ((32 <=? n) && (n <? 127) || (161 <=? n) && negb (n =? 173))%nat.

Definition repr_char (quote c : ascii) : string :=
  let n := nat_of_ascii c in
  if Ascii.eqb c quote || Ascii.eqb c "\"%char then String "\" (String c EmptyString)
  else if (n =? 9)%nat then "\t"
  else if (n =? 10)%nat then "\n"
  else if (n =? 13)%nat then "\r"
  else if printable n then String c EmptyString
  else String "\" (String "x" (String (hex_digit (n / 16))
                                  (String (hex_digit (n mod 16)) EmptyString))).

Definition dquote : ascii := ascii_of_nat 34.
Definition squote : ascii := ascii_of_nat 39.

Definition repr_str (s : string) : string :=
  let quote :=
    if contains_char squote s && negb (contains_char dquote s) then dquote else squote in
  String quote
    (String.concat EmptyString (map (repr_char quote) (list_ascii_of_string s))
     ++ String quote EmptyString).

Fixpoint repr (v : value) : string :=
  match v with
  | VNone => "None"
  | VBool true => "True"
  | VBool false => "False"
  | VInt n => str_of_Z n
  | VFloat r => r
  | VStr s => repr_str s
  | VList items => "[" ++ String.concat ", " (map repr items) ++ "]"
  | VDict items =>
      "{" ++ String.concat ", "
               (map (fun kv => repr_str (fst kv) ++ ": " ++ repr (snd kv)) items)
          ++ "}"
  end.

(** [str(v)], what an f-string field [{v}] expands to. *)
Definition str (v : value) : string :=
  match v with
  | VStr s => s
  | _ => repr v
  end.

(** [{c}] for what [os.getenv] returned. *)
Definition str_getenv (c : option string) : string :=
  match c with
  | None => "None"
  | Some s => s
  end.

(** *** [str.strip] *)

Definition isspace (c : ascii) : bool :=
  let n := nat_of_ascii c in
  ((9 <=? n) && (n <=? 13) || (28 <=? n) && (n <=? 32) || (n =? 133) || (n =? 160))%nat.

Fixpoint lstrip (s : string) : string :=
  match s with
  | EmptyString => EmptyString
  | String c rest => if isspace c then lstrip rest else s
  end.

Definition rev_string (s : string) : string :=
  string_of_list_ascii (rev (list_ascii_of_string s)).

Definition strip (s : string) : string :=
  rev_string (lstrip (rev_string (lstrip s))).

(** *** [os.path.join] (posixpath) *)

Definition ends_with_sep (s : string) : bool :=
  match rev (list_ascii_of_string s) with
  | c :: _ => Ascii.eqb c "/"
  | [] => false
  end.

Definition join2 (path b : string) : string :=
  if String.prefix "/" b then b
  else if String.eqb path EmptyString || ends_with_sep path then path ++ b
  else path ++ "/" ++ b.

Definition path_join (a : string) (p : list string) : string := fold_left join2 p a.

End Py.

Import Py.

(** ** The outside world and the effect monad *)

(** What [requests.post] returns. [json] is the outcome of
    [response.json()]. *)
Record response := {
  status_code : Z;
  text : string;
  json : exn + value
}.

(** One run's collaborators.  The first five fields are what [os.getenv]
    returns, [None] when the variable is unset; [parent_dir] is the directory
    above the module's own.  Every other field is the answer of a
    collaborator to a call with the given arguments: [inl e] or [Some e]
    when the call raises [e].  [callback] takes the number of earlier POSTs
    of the run as well, so that an endpoint may answer differently over
    time. *)
Record world := {
  STUDENT_SECRET : option string;
  GITHUB_TOKEN : option string;
  GITHUB_USERNAME : option string;
  AI_PIPE_API_URL : option string;
  AI_PIPE_API_KEY : option string;
  parent_dir : string;
  ai_pipe : string -> list (string * string) -> value -> exn + response;
  makedirs : string -> option exn;
  write_file : string -> string -> option exn;
  create_repo : option string -> value -> exn + string;
  subprocess_run : list string -> string -> exn + Z;
  repo_edit : string -> option exn;
  callback : nat -> value -> value -> exn + response
}.

(** The external calls a run makes, in the order it makes them. *)
Inductive event :=
| SynthesisPost (url : string) (headers : list (string * string)) (body : value)
| Makedirs (path : string)
| WriteFile (path content : string)
| CreateRepo (token : option string) (name : value)
| Subprocess (argv : list string) (cwd : string)
| RepoEdit (clone_url : string)
| CallbackPost (url body : value)
| Print (e : exn)
| Sleep (secs : Z).

(** A computation: the calls made so far, and an exception or a result. *)
Definition M (A : Type) : Type := list event * (exn + A).

Definition ret {A} (a : A) : M A := ([], inr a).
Definition raise {A} (e : exn) : M A := ([], inl e).
Definition emit (ev : event) : M unit := ([ev], inr tt).

Definition bind {A B} (m : M A) (k : A -> M B) : M B :=
  match m with
  | (t, inl e) => (t, inl e)
  | (t, inr a) => let (t', r) := k a in ((t ++ t')%list, r)
  end.

(** A pure operation that may raise. *)
Definition lift {A} (r : exn + A) : M A := ([], r).

(** A call whose answer is a result or an exception. *)
Definition call {A} (ev : event) (answer : exn + A) : M A := ([ev], answer).

(** A call that returns nothing. *)
Definition call_ (ev : event) (answer : option exn) : M unit :=
  ([ev], match answer with Some e => inl e | None => inr tt end).

(** [try: m except Exception: ...]: the outcome of [m] as a value. *)
Definition try {A} (m : M A) : M (exn + A) := (fst m, inr (snd m)).

Definition trace {A} (m : M A) : list event := fst m.
Definition outcome {A} (m : M A) : exn + A := snd m.

Declare Scope py_scope.
Delimit Scope py_scope with py.
Notation "x <- m ;; k" := (bind m (fun x => k))
  (at level 61, m at next level, right associativity) : py_scope.
Notation "' pat <- m ;; k" := (bind m (fun x => match x with pat => k end))
  (at level 61, pat pattern, m at next level, right associativity) : py_scope.
Notation "m ;; k" := (bind m (fun _ => k))
  (at level 61, right associativity) : py_scope.
Open Scope py_scope.

(** ** llm_agent/generator.py *)

Definition full_prompt (prompt : value) : string :=
  nl ++ "    You are an AI developer that writes fully working FastAPI apps." ++ nl
     ++ "    Generate complete, minimal, and runnable Python code for:" ++ nl
     ++ "    " ++ str prompt ++ nl
     ++ nl
     ++ "    Include all necessary imports and ensure the code runs with:" ++ nl
     ++ "        uvicorn app:app --reload" ++ nl
     ++ "    ".

Definition synthesis_payload (prompt : value) : value :=
  VDict [("model", VStr "gpt-4o-mini");
         ("messages",
          VList [VDict [("role", VStr "system");
                        ("content", VStr "You are a professional Python app generator.")];
                 VDict [("role", VStr "user");
                        ("content", VStr (full_prompt prompt))]]);
         ("temperature", VFloat "0.4")].

(** [data["choices"][0]["message"]["content"]] *)
Definition extract_content (data : value) : exn + value :=
  match getitem data "choices" with
  | inl e => inl e
  | inr choices =>
      match getitem0 choices with
      | inl e => inl e
      | inr choice =>
          match getitem choice "message" with
          | inl e => inl e
          | inr message => getitem message "content"
          end
      end
  end.

Definition generate_app_code (w : world) (prompt : value) : M string :=
  let api_url := AI_PIPE_API_URL w in
  let api_key := AI_PIPE_API_KEY w in
  if not_getenv api_url || not_getenv api_key then
    raise (ValueError "Missing AI_PIPE_API_URL or AI_PIPE_API_KEY environment variables.")
  else
    let url := str_getenv api_url in
    let headers := [("Authorization", "Bearer " ++ str_getenv api_key);
                    ("Content-Type", "application/json")] in
    let payload := synthesis_payload prompt in
    response <- call (SynthesisPost url headers payload) (ai_pipe w url headers payload) ;;
    if negb (status_code response =? 200) then
      raise (RuntimeError ("AI Pipe request failed: " ++ str_of_Z (status_code response)
                           ++ " " ++ text response))
    else
      data <- lift (json response) ;;
      match extract_content data with
      | inl KeyError | inl IndexError =>
          raise (RuntimeError ("Unexpected AI Pipe response: " ++ str data))
      | inl e => raise e
      | inr (VStr code) => ret (strip code)
      | inr _ => raise AttributeError
      end.

(** ** student_api/main.py *)

Definition save_code_to_file (w : world) (code : string) (task : value)
  : M (string * string) :=
  match task with
  | VStr task =>
      let folder := path_join (parent_dir w) ["generated_app"; task] in
      call_ (Makedirs folder) (makedirs w folder) ;;
      let file_path := path_join folder ["app.py"] in
      call_ (WriteFile file_path code) (write_file w file_path code) ;;
      ret (folder, file_path)
  | _ => raise TypeError
  end.

Definition create_readme (task brief : value) : string :=
  "# " ++ str task ++ nl ++ nl ++ "## Brief" ++ nl ++ str brief ++ nl ++ nl
       ++ "## Usage" ++ nl ++ "Run:" ++ nl ++ "```" ++ nl
       ++ "uvicorn app:app --reload" ++ nl ++ "```" ++ nl.

Definition license_text : string :=
  "MIT License" ++ nl ++ nl ++ "Copyright (c) 2025" ++ nl ++ nl
  ++ "Permission is hereby granted, free of charge, to any person obtaining a copy..."
  ++ nl.

Definition add_mit_license (w : world) (folder : string) : M unit :=
  let path := path_join folder ["LICENSE"] in
  call_ (WriteFile path license_text) (write_file w path license_text).

(** [subprocess.run(argv, cwd=folder)]: the exit status is dropped. *)
Definition run (w : world) (argv : list string) (cwd : string) : M unit :=
  call (Subprocess argv cwd) (subprocess_run w argv cwd) ;; ret tt.

(** [Github(GITHUB_TOKEN).get_user().create_repo(...)] is one call to the
    hosting backend; the repository it returns is known by its clone URL. *)
Definition init_git_and_push (w : world) (folder : string) (repo_name : value)
  : M (string * string * string) :=
  clone_url <- call (CreateRepo (GITHUB_TOKEN w) repo_name)
                    (create_repo w (GITHUB_TOKEN w) repo_name) ;;
  run w ["git"; "init"] folder ;;
  run w ["git"; "add"; "."] folder ;;
  run w ["git"; "commit"; "-m"; "Initial commit"] folder ;;
  run w ["git"; "branch"; "-M"; "main"] folder ;;
  run w ["git"; "remote"; "add"; "origin"; clone_url] folder ;;
  run w ["git"; "push"; "-u"; "origin"; "main"] folder ;;
  call_ (RepoEdit clone_url) (repo_edit w clone_url) ;;
  let pages_url :=
    "https://" ++ str_getenv (GITHUB_USERNAME w) ++ ".github.io/" ++ str repo_name ++ "/" in
  ret (clone_url, "main", pages_url).

(** The loop of [post_to_evaluation_url] over the remaining [retries];
    [attempt] counts the POSTs already made. *)
Fixpoint post_loop (w : world) (retries : list Z) (attempt : nat) (data url : value)
  : M bool :=
  match retries with
  | [] => ret false
  | r :: rest =>
      resp <- try (call (CallbackPost url data) (callback w attempt url data)) ;;
      match resp with
      | inr resp =>
          if status_code resp =? 200 then ret true
          else emit (Sleep r) ;; post_loop w rest (S attempt) data url
      | inl e =>
          emit (Print e) ;; emit (Sleep r) ;; post_loop w rest (S attempt) data url
      end
  end.

Definition retries : list Z := [1; 2; 4; 8].

Definition post_to_evaluation_url (w : world) (data url : value) : M bool :=
  post_loop w retries 0 data url.

(** What [await request.json()] does: raises, [str(e)] being [msg], or
    returns the decoded body. *)
Inductive request :=
| BadJSON (msg : string)
| Body (data : value).

Definition required_fields : list string :=
  ["email"; "secret"; "task"; "round"; "nonce"; "brief"; "evaluation_url"].

(** The validation loop: the first field of [fields] that is not in [data]. *)
Fixpoint first_missing (fields : list string) (data : value) : exn + option string :=
  match fields with
  | [] => inr None
  | field :: rest =>
      match contains field data with
      | inl e => inl e
      | inr false => inr (Some field)
      | inr true => first_missing rest data
      end
  end.

Definition error (msg : string) : value := VDict [("error", VStr msg)].

Definition generate_app (w : world) (req : request) : M value :=
  match req with
  | BadJSON e => ret (error ("Invalid JSON: " ++ e))
  | Body data =>
      missing <- lift (first_missing required_fields data) ;;
      match missing with
      | Some field => ret (error ("Missing field: " ++ field))
      | None =>
          secret <- lift (getitem data "secret") ;;
          if negb (eq_getenv secret (STUDENT_SECRET w)) then ret (error "Invalid secret")
          else
            task <- lift (getitem data "task") ;;
            brief <- lift (getitem data "brief") ;;
            code <- generate_app_code w brief ;;
            '(folder, file_path) <- save_code_to_file w code task ;;
            let readme_path := path_join folder ["README.md"] in
            let readme := create_readme task brief in
            call_ (WriteFile readme_path readme) (write_file w readme_path readme) ;;
            add_mit_license w folder ;;
            '(repo_url, commit_sha, pages_url) <- init_git_and_push w folder task ;;
            email <- lift (getitem data "email") ;;
            task' <- lift (getitem data "task") ;;
            round <- lift (getitem data "round") ;;
            nonce <- lift (getitem data "nonce") ;;
            let payload :=
              VDict [("email", email); ("task", task'); ("round", round);
                     ("nonce", nonce); ("repo_url", VStr repo_url);
                     ("commit_sha", VStr commit_sha); ("pages_url", VStr pages_url)] in
            evaluation_url <- lift (getitem data "evaluation_url") ;;
            success <- post_to_evaluation_url w payload evaluation_url ;;
            if negb success then ret (error "Failed to post to evaluation_url after retries")
            else ret (VDict [("message", VStr "Task completed successfully");
                             ("repo_url", VStr repo_url);
                             ("pages_url", VStr pages_url)])
      end
  end.

(** ** Observations on a run *)

(** The POSTs to the evaluation callback, as (url, body), in order. *)
Definition callback_posts (t : list event) : list (value * value) :=
  flat_map (fun ev => match ev with CallbackPost u b => [(u, b)] | _ => [] end) t.

(** The sleeps, in order. *)
Definition sleeps (t : list event) : list Z :=
  flat_map (fun ev => match ev with Sleep r => [r] | _ => [] end) t.

(** A run without what it printed. *)
Definition silent (t : list event) : list event :=
  filter (fun ev => match ev with Print _ => false | _ => true end) t.

(** An attempt that is not a response with status 200. *)
Definition failed (answer : exn + response) : bool :=
  match answer with
  | inr resp => negb (status_code resp =? 200)
  | inl _ => true
  end.

(** Every required key is in the dict. *)
Definition all_present (items : list (string * value)) : bool :=
  forallb (fun field => has_key field items) required_fields.

(** The dict's secret equals the configured one. *)
Definition secret_matches (w : world) (items : list (string * value)) : bool :=
  match lookup "secret" items with
  | Some secret => eq_getenv secret (STUDENT_SECRET w)
  | None => false
  end.

(** The response of a completed run. *)
Definition completed (repo_url pages_url : string) : value :=
  VDict [("message", VStr "Task completed successfully");
         ("repo_url", VStr repo_url);
         ("pages_url", VStr pages_url)].

(** [data[key]] of a dict that has the key ([None] stands in otherwise). *)
Definition field (items : list (string * value)) (key : string) : value :=
  match lookup key items with
  | Some v => v
  | None => VNone
  end.

(** The notice of a run, lines 135 to 143. *)
Definition notice (items : list (string * value)) (repo_url commit_sha pages_url : string)
  : value :=
  VDict [("email", field items "email"); ("task", field items "task");
         ("round", field items "round"); ("nonce", field items "nonce");
         ("repo_url", VStr repo_url); ("commit_sha", VStr commit_sha);
         ("pages_url", VStr pages_url)].

(** Lines 118 to 129 of [generate_app]: synthesis, then the three files. *)
Definition stage (w : world) (task brief : value) : M string :=
  code <- generate_app_code w brief ;;
  '(folder, file_path) <- save_code_to_file w code task ;;
  let readme_path := path_join folder ["README.md"] in
  let readme := create_readme task brief in
  call_ (WriteFile readme_path readme) (write_file w readme_path readme) ;;
  add_mit_license w folder ;;
  ret folder.

(** What the code-generation backend answers to the request built for
    [prompt], lines 25 to 39 of the generator. *)
Definition backend_answer (w : world) (prompt : value) : exn + response :=
  ai_pipe w (str_getenv (AI_PIPE_API_URL w))
    [("Authorization", "Bearer " ++ str_getenv (AI_PIPE_API_KEY w));
     ("Content-Type", "application/json")]
    (synthesis_payload prompt).

(** The generator finds its two variables set. *)
Definition configured (w : world) : bool :=
  negb (not_getenv (AI_PIPE_API_URL w) || not_getenv (AI_PIPE_API_KEY w)).

(** A computation that makes no POST to the evaluation callback. *)
Definition quiet {A} (m : M A) : Prop := callback_posts (trace m) = [].

(** The calls of the dispatcher: it posts, prints and sleeps. *)
Definition notifying (ev : event) : bool :=
  match ev with
  | CallbackPost _ _ | Print _ | Sleep _ => true
  | _ => false
  end.

(** The messages of the checks made before the first call. *)
Definition validation_message (msg : string) : Prop :=
  (exists e, msg = "Invalid JSON: " ++ e)
  \/ (exists f, In f required_fields /\ msg = "Missing field: " ++ f)
  \/ msg = "Invalid secret".

Definition exhausted : string := "Failed to post to evaluation_url after retries".

(** The three ways a run ends: rejected before any call, cut short by an
    exception before any POST to the callback, or carried through to the
    dispatcher, whose answer decides the response. *)
Inductive ending (w : world) (req : request) : Prop :=
| Rejected (msg : string) :
    validation_message msg ->
    generate_app w req = ([], inr (error msg)) ->
    ending w req
| Aborted (e : exn) :
    outcome (generate_app w req) = inl e ->
    quiet (generate_app w req) ->
    ending w req
| Delivered (items : list (string * value)) (folder repo_url commit_sha pages_url : string)
    (success : bool) :
    req = Body (VDict items) ->
    all_present items = true ->
    secret_matches w items = true ->
    outcome (stage w (field items "task") (field items "brief")) = inr folder ->
    outcome (init_git_and_push w folder (field items "task"))
      = inr (repo_url, commit_sha, pages_url) ->
    outcome (post_to_evaluation_url w (notice items repo_url commit_sha pages_url)
               (field items "evaluation_url")) = inr success ->
    generate_app w req
    = ((trace (stage w (field items "task") (field items "brief"))
        ++ trace (init_git_and_push w folder (field items "task"))
        ++ trace (post_to_evaluation_url w (notice items repo_url commit_sha pages_url)
                    (field items "evaluation_url")))%list,
       inr (if success then completed repo_url pages_url else error exhausted)) ->
    ending w req.

(** ** Further observations *)

(** A str without leading and without trailing whitespace. *)
Definition stripped (s : string) : Prop :=
  lstrip s = s /\ lstrip (rev_string s) = rev_string s.

(** The step of the pipeline a call belongs to: synthesis, storage,
    publication, notification. *)
Definition phase (ev : event) : nat :=
  match ev with
  | SynthesisPost _ _ _ => 0
  | Makedirs _ | WriteFile _ _ => 1
  | CreateRepo _ _ | Subprocess _ _ | RepoEdit _ => 2
  | CallbackPost _ _ | Print _ | Sleep _ => 3
  end.

(** The calls of [t] are in the order of the pipeline. *)
Fixpoint in_order (t : list event) : Prop :=
  match t with
  | [] => True
  | ev :: rest => Forall (fun ev' => (phase ev <= phase ev')%nat) rest /\ in_order rest
  end.

(** The calls of a computation are in order and belong to steps [lo] to [hi]. *)
Definition within {A} (lo hi : nat) (m : M A) : Prop :=
  in_order (trace m)
  /\ Forall (fun ev => (lo <= phase ev)%nat /\ (phase ev <= hi)%nat) (trace m).

(** The files the handler writes itself, with [open(path, "w")], as (path,
    content) and in order.  What a subprocess writes is not among them: a
    git command is one [Subprocess] call, whatever it does in its
    directory. *)
Definition files (t : list event) : list (string * string) :=
  flat_map (fun ev => match ev with WriteFile p c => [(p, c)] | _ => [] end) t.

(** The exceptions printed, in order. *)
Definition prints (t : list event) : list exn :=
  flat_map (fun ev => match ev with Print e => [e] | _ => [] end) t.

(** The calls of a publication that goes through, lines 63 to 76. *)
Definition publication_calls (token : option string) (repo_name : value)
  (folder clone_url : string) : list event :=
  [CreateRepo token repo_name;
   Subprocess ["git"; "init"] folder;
   Subprocess ["git"; "add"; "."] folder;
   Subprocess ["git"; "commit"; "-m"; "Initial commit"] folder;
   Subprocess ["git"; "branch"; "-M"; "main"] folder;
   Subprocess ["git"; "remote"; "add"; "origin"; clone_url] folder;
   Subprocess ["git"; "push"; "-u"; "origin"; "main"] folder;
   RepoEdit clone_url].

(** [k] failed attempts, each followed by its sleep, and one more POST. *)
Definition attempts (post : event) (k : nat) (delays : list Z) : list event :=
  (flat_map (fun r => [post; Sleep r]) (firstn k delays) ++ [post])%list.

(** The exceptions of the attempts numbered by [ns]. *)
Definition raised_at (w : world) (data url : value) (ns : list nat) : list exn :=
  flat_map (fun n => match callback w n url data with inl e => [e] | inr _ => [] end) ns.

(** A call that, if it is a subprocess, runs in [folder]. *)
Definition runs_in (folder : string) (ev : event) : Prop :=
  match ev with
  | Subprocess _ cwd => cwd = folder
  | _ => True
  end.

(** The exception with which a call of publication is answered, if any. *)
Definition raised_by (w : world) (ev : event) : option exn :=
  match ev with
  | CreateRepo token name =>
      match create_repo w token name with inl e => Some e | inr _ => None end
  | Subprocess argv cwd =>
      match subprocess_run w argv cwd with inl e => Some e | inr _ => None end
  | RepoEdit clone_url => repo_edit w clone_url
  | _ => None
  end.

(** The site URL, line 77. *)
Definition site_url (w : world) (repo_name : value) : string :=
  "https://" ++ str_getenv (GITHUB_USERNAME w) ++ ".github.io/" ++ str repo_name ++ "/".

(** The folder of a task, line 39. *)
Definition task_folder (w : world) (task : string) : string :=
  path_join (parent_dir w) ["generated_app"; task].

(** ** Scenarios *)

Module Scenario.

Definition demo_items : list (string * value) :=
  [("email", VStr "a@b.com"); ("secret", VStr "S"); ("task", VStr "demo1");
   ("round", VInt 1); ("nonce", VStr "n1"); ("brief", VStr "a hello-world API");
   ("evaluation_url", VStr "http://eval/cb")].

Definition demo : request := Body (VDict demo_items).

(** The same request with a null secret. *)
Definition null_secret_items : list (string * value) :=
  [("email", VStr "a@b.com"); ("secret", VNone); ("task", VStr "demo1");
   ("round", VInt 1); ("nonce", VStr "n1"); ("brief", VStr "a hello-world API");
   ("evaluation_url", VStr "http://eval/cb")].

Definition ok : response :=
  {| status_code := 200; text := "ok"; json := inr VNone |}.

Definition unavailable : response :=
  {| status_code := 503; text := "unavailable"; json := inr VNone |}.

Definition source_reply : response :=
  {| status_code := 200;
     text := "...";
     json := inr (VDict [("choices",
                          VList [VDict [("message",
                                         VDict [("role", VStr "assistant");
                                                ("content", VStr "  app = 1  ")])]])]) |}.

(** Everything is configured and every collaborator succeeds, the call
    that enables the site included: a hosting library whose [edit] takes
    [has_pages].  The hosting backend names the clone URL as GitHub does. *)
Definition good : world :=
  {| STUDENT_SECRET := Some "S";
     GITHUB_TOKEN := Some "t0ken";
     GITHUB_USERNAME := Some "user";
     AI_PIPE_API_URL := Some "http://aipipe/v1";
     AI_PIPE_API_KEY := Some "k3y";
     parent_dir := "/srv";
     ai_pipe := fun _ _ _ => inr source_reply;
     makedirs := fun _ => None;
     write_file := fun _ _ => None;
     create_repo := fun _ name => inr ("https://github.com/user/" ++ str name ++ ".git");
     subprocess_run := fun _ _ => inr 0;
     repo_edit := fun _ => None;
     callback := fun _ _ _ => inr ok |}.

Definition with_callback (cb : nat -> value -> value -> exn + response) (w : world) : world :=
  {| STUDENT_SECRET := STUDENT_SECRET w; GITHUB_TOKEN := GITHUB_TOKEN w;
     GITHUB_USERNAME := GITHUB_USERNAME w; AI_PIPE_API_URL := AI_PIPE_API_URL w;
     AI_PIPE_API_KEY := AI_PIPE_API_KEY w; parent_dir := parent_dir w;
     ai_pipe := ai_pipe w; makedirs := makedirs w; write_file := write_file w;
     create_repo := create_repo w; subprocess_run := subprocess_run w;
     repo_edit := repo_edit w; callback := cb |}.

Definition with_subprocess (run : list string -> string -> exn + Z) (w : world) : world :=
  {| STUDENT_SECRET := STUDENT_SECRET w; GITHUB_TOKEN := GITHUB_TOKEN w;
     GITHUB_USERNAME := GITHUB_USERNAME w; AI_PIPE_API_URL := AI_PIPE_API_URL w;
     AI_PIPE_API_KEY := AI_PIPE_API_KEY w; parent_dir := parent_dir w;
     ai_pipe := ai_pipe w; makedirs := makedirs w; write_file := write_file w;
     create_repo := create_repo w; subprocess_run := run;
     repo_edit := repo_edit w; callback := callback w |}.

Definition with_ai_pipe (url : option string)
  (post : string -> list (string * string) -> value -> exn + response) (w : world) : world :=
  {| STUDENT_SECRET := STUDENT_SECRET w; GITHUB_TOKEN := GITHUB_TOKEN w;
     GITHUB_USERNAME := GITHUB_USERNAME w; AI_PIPE_API_URL := url;
     AI_PIPE_API_KEY := AI_PIPE_API_KEY w; parent_dir := parent_dir w;
     ai_pipe := post; makedirs := makedirs w; write_file := write_file w;
     create_repo := create_repo w; subprocess_run := subprocess_run w;
     repo_edit := repo_edit w; callback := callback w |}.

Definition with_secret (secret : option string) (w : world) : world :=
  {| STUDENT_SECRET := secret; GITHUB_TOKEN := GITHUB_TOKEN w;
     GITHUB_USERNAME := GITHUB_USERNAME w; AI_PIPE_API_URL := AI_PIPE_API_URL w;
     AI_PIPE_API_KEY := AI_PIPE_API_KEY w; parent_dir := parent_dir w;
     ai_pipe := ai_pipe w; makedirs := makedirs w; write_file := write_file w;
     create_repo := create_repo w; subprocess_run := subprocess_run w;
     repo_edit := repo_edit w; callback := callback w |}.

Definition with_create_repo (create : option string -> value -> exn + string) (w : world)
  : world :=
  {| STUDENT_SECRET := STUDENT_SECRET w; GITHUB_TOKEN := GITHUB_TOKEN w;
     GITHUB_USERNAME := GITHUB_USERNAME w; AI_PIPE_API_URL := AI_PIPE_API_URL w;
     AI_PIPE_API_KEY := AI_PIPE_API_KEY w; parent_dir := parent_dir w;
     ai_pipe := ai_pipe w; makedirs := makedirs w; write_file := write_file w;
     create_repo := create; subprocess_run := subprocess_run w;
     repo_edit := repo_edit w; callback := callback w |}.

Definition with_repo_edit (edit : string -> option exn) (w : world) : world :=
  {| STUDENT_SECRET := STUDENT_SECRET w; GITHUB_TOKEN := GITHUB_TOKEN w;
     GITHUB_USERNAME := GITHUB_USERNAME w; AI_PIPE_API_URL := AI_PIPE_API_URL w;
     AI_PIPE_API_KEY := AI_PIPE_API_KEY w; parent_dir := parent_dir w;
     ai_pipe := ai_pipe w; makedirs := makedirs w; write_file := write_file w;
     create_repo := create_repo w; subprocess_run := subprocess_run w;
     repo_edit := edit; callback := callback w |}.

(** The hosting library is PyGithub: its [Repository.edit] has no parameter
    [has_pages], so that the call of line 76 raises TypeError before any
    request is sent.  Everything else succeeds. *)
Definition pygithub : world := with_repo_edit (fun _ => Some TypeError) good.

Definition push_argv : list string := ["git"; "push"; "-u"; "origin"; "main"].

Definition is_push (argv : list string) : bool :=
  if list_eq_dec string_dec argv push_argv then true else false.

(** [git push] exits with status 128; everything else succeeds. *)
Definition push_rejected : world :=
  with_subprocess (fun argv _ => if is_push argv then inr 128 else inr 0) good.

(** [git push] cannot be run at all; everything else succeeds. *)
Definition push_raises : world :=
  with_subprocess
    (fun argv _ => if is_push argv then inl (Raised "OSError" "cannot run git") else inr 0)
    good.

(** The callback never answers 200. *)
Definition deaf : world := with_callback (fun _ _ _ => inr unavailable) good.

(** The callback raises twice, then answers 200. *)
Definition third_time : world :=
  with_callback
    (fun attempt _ _ =>
       if (attempt <? 2)%nat then inl (Raised "ConnectionError" "refused") else inr ok)
    good.

(** The code-generation backend is not configured. *)
Definition unconfigured : world := with_ai_pipe None (ai_pipe good) good.

(** No shared secret is configured. *)
Definition no_secret : world := with_secret None good.

(** The same request with a number as task. *)
Definition numeric_task_items : list (string * value) :=
  [("email", VStr "a@b.com"); ("secret", VStr "S"); ("task", VInt 7);
   ("round", VInt 1); ("nonce", VStr "n1"); ("brief", VStr "a hello-world API");
   ("evaluation_url", VStr "http://eval/cb")].

(** The same request with more keys, in another order. *)
Definition shuffled_items : list (string * value) :=
  [("note", VStr "hi"); ("evaluation_url", VStr "http://eval/cb");
   ("brief", VStr "a hello-world API"); ("nonce", VStr "n1"); ("round", VInt 1);
   ("task", VStr "demo1"); ("secret", VStr "S"); ("email", VStr "a@b.com");
   ("extra", VList [])].

Definition with_makedirs (mk : string -> option exn) (w : world) : world :=
  {| STUDENT_SECRET := STUDENT_SECRET w; GITHUB_TOKEN := GITHUB_TOKEN w;
     GITHUB_USERNAME := GITHUB_USERNAME w; AI_PIPE_API_URL := AI_PIPE_API_URL w;
     AI_PIPE_API_KEY := AI_PIPE_API_KEY w; parent_dir := parent_dir w;
     ai_pipe := ai_pipe w; makedirs := mk; write_file := write_file w;
     create_repo := create_repo w; subprocess_run := subprocess_run w;
     repo_edit := repo_edit w; callback := callback w |}.

(** The disk is read-only. *)
Definition read_only : world :=
  with_makedirs (fun _ => Some (Raised "OSError" "read-only file system")) good.

(** The repository exists already. *)
Definition collision : world :=
  with_create_repo (fun _ _ => inl (Raised "GithubException" "name already exists")) good.

(** The backend answers 200 with a body of another shape. *)
Definition reply_of (data : value) : response :=
  {| status_code := 200; text := "..."; json := inr data |}.

(** A body whose content is null. *)
Definition null_content : value :=
  VDict [("choices", VList [VDict [("message", VDict [("content", VNone)])]])].

Definition answering (data : value) : world :=
  with_ai_pipe (AI_PIPE_API_URL good) (fun _ _ _ => inr (reply_of data)) good.

(** The callback answers 200 at once, at the second, at the fourth attempt. *)
Definition from_attempt (k : nat) : world :=
  with_callback (fun attempt _ _ => if (attempt <? k)%nat then inr unavailable else inr ok)
    good.

End Scenario.

(** ** The monad *)

Section Laws.
Context {A B : Type}.

Lemma bind_raise (m : M A) (k : A -> M B) (e : exn) :
  outcome m = inl e -> bind m k = (trace m, inl e).
Proof.
  destruct m as [t [e' | a]]; cbn; intros H; inversion H; reflexivity.
Qed.

Lemma bind_return (m : M A) (k : A -> M B) (a : A) :
  outcome m = inr a -> bind m k = ((trace m ++ trace (k a))%list, outcome (k a)).
Proof.
  destruct m as [t [e | a']]; cbn; intros H; inversion H; subst.
  destruct (k a); reflexivity.
Qed.

Lemma bind_lift (a : A) (k : A -> M B) : bind (lift (inr a)) k = k a.
Proof.
  unfold lift, bind. destruct (k a); reflexivity.
Qed.
End Laws.

Lemma bind_assoc {A B C} (m : M A) (f : A -> M B) (g : B -> M C) :
  bind (bind m f) g = bind m (fun a => bind (f a) g).
Proof.
  destruct m as [t [e | a]]; cbn; [reflexivity |].
  destruct (f a) as [t' [e | b]]; cbn; [reflexivity |].
  destruct (g b) as [t'' r]. now rewrite app_assoc.
Qed.

Lemma callback_posts_app (s t : list event) :
  callback_posts (s ++ t) = (callback_posts s ++ callback_posts t)%list.
Proof. apply flat_map_app. Qed.

(** ** Validation *)

Lemma has_key_lookup (k : string) (items : list (string * value)) :
  has_key k items = true -> exists v, lookup k items = Some v.
Proof.
  unfold has_key, lookup. induction items as [| [k' v] items IH]; cbn; [discriminate |].
  destruct (String.eqb k' k); cbn; [eauto | exact IH].
Qed.

Lemma has_key_field (k : string) (items : list (string * value)) :
  has_key k items = true -> getitem (VDict items) k = inr (field items k).
Proof.
  intros H. destruct (has_key_lookup _ _ H) as [v Hv].
  unfold getitem, field. now rewrite Hv.
Qed.

(** A membership test that answers for one field answers for all. *)
Lemma contains_total (data : value) (f : string) (b : bool) :
  contains f data = inr b -> forall g, exists c, contains g data = inr c.
Proof.
  destruct data; cbn; try discriminate; eauto.
Qed.

(** The loop stops at the first field that is missing. *)
Lemma first_missing_split (data : value) (before after : list string) (f : string) :
  (forall g, In g before -> contains g data = inr true) ->
  contains f data = inr false ->
  first_missing (before ++ f :: after) data = inr (Some f).
Proof.
  induction before as [| g before IH]; cbn; intros Hb Hf.
  - now rewrite Hf.
  - rewrite (Hb g (or_introl eq_refl)). apply IH; auto.
Qed.

(** A list with a missing field splits at its first missing field. *)
Lemma first_gap (data : value) (fields : list string) (f : string) :
  In f fields -> contains f data = inr false ->
  exists before g after,
    fields = (before ++ g :: after)%list
    /\ (forall h, In h before -> contains h data = inr true)
    /\ contains g data = inr false.
Proof.
  intros Hin Hf. induction fields as [| h fields IH]; [destruct Hin |].
  destruct (contains_total _ _ _ Hf h) as [[|] Hh].
  - destruct Hin as [-> | Hin]; [congruence |].
    destruct (IH Hin) as (before & g & after & -> & Hb & Hg).
    exists (h :: before), g, after. repeat split; auto.
    intros h' [<- | Hh']; auto.
  - exists [], h, fields. repeat split; auto. intros ? [].
Qed.

Lemma all_present_no_gap (items : list (string * value)) :
  all_present items = true -> first_missing required_fields (VDict items) = inr None.
Proof.
  unfold all_present. generalize required_fields as fields.
  induction fields as [| f fields IH]; cbn; [reflexivity |].
  intros H. apply andb_prop in H as [-> H]. auto.
Qed.

Lemma all_present_has_key (items : list (string * value)) (f : string) :
  all_present items = true -> In f required_fields -> has_key f items = true.
Proof.
  unfold all_present. rewrite forallb_forall. auto.
Qed.

(** ** The dispatcher *)

(** Every POST of the loop carries the url and the body it was given. *)
Lemma post_loop_posts (w : world) (data url : value) (rs : list Z) (n : nat) :
  Forall (eq (url, data)) (callback_posts (trace (post_loop w rs n data url))).
Proof.
  revert n. induction rs as [| r rs IH]; intros n; cbn; [constructor |].
  specialize (IH (S n)).
  destruct (callback w n url data) as [e | resp]; cbn.
  - destruct (post_loop w rs (S n) data url) as [t o]; cbn in *. now constructor.
  - destruct (status_code resp =? 200); cbn; [repeat constructor |].
    destruct (post_loop w rs (S n) data url) as [t o]; cbn in *. now constructor.
Qed.

(** The loop raises nothing. *)
Lemma post_loop_returns (w : world) (data url : value) (rs : list Z) (n : nat) :
  exists b, outcome (post_loop w rs n data url) = inr b.
Proof.
  revert n. induction rs as [| r rs IH]; intros n; cbn; [eauto |].
  destruct (IH (S n)) as [b Hb].
  destruct (callback w n url data) as [e | resp]; cbn.
  - destruct (post_loop w rs (S n) data url) as [t o]; cbn in *. eauto.
  - destruct (status_code resp =? 200); cbn; [eauto |].
    destruct (post_loop w rs (S n) data url) as [t o]; cbn in *. eauto.
Qed.

Lemma post_loop_notifying (w : world) (data url : value) (rs : list Z) (n : nat) :
  forallb notifying (trace (post_loop w rs n data url)) = true.
Proof.
  revert n. induction rs as [| r rs IH]; intros n; cbn; [reflexivity |].
  specialize (IH (S n)).
  destruct (callback w n url data) as [e | resp]; cbn.
  - destruct (post_loop w rs (S n) data url) as [t o]; cbn in *. assumption.
  - destruct (status_code resp =? 200); cbn; [reflexivity |].
    destruct (post_loop w rs (S n) data url) as [t o]; cbn in *. assumption.
Qed.

(** One failed attempt: the POST, the sleep, then the rest of the loop. *)
Lemma post_loop_failed (w : world) (data url : value) (r : Z) (rs : list Z) (n : nat) :
  failed (callback w n url data) = true ->
  outcome (post_loop w (r :: rs) n data url) = outcome (post_loop w rs (S n) data url)
  /\ silent (trace (post_loop w (r :: rs) n data url))
     = CallbackPost url data :: Sleep r :: silent (trace (post_loop w rs (S n) data url)).
Proof.
  cbn. destruct (callback w n url data) as [e | resp]; cbn.
  - intros _. destruct (post_loop w rs (S n) data url) as [t o]; cbn. auto.
  - intros H. apply negb_true_iff in H. rewrite H; cbn.
    destruct (post_loop w rs (S n) data url) as [t o]; cbn. auto.
Qed.

(** A successful attempt ends the loop. *)
Lemma post_loop_succeeded (w : world) (data url : value) (r : Z) (rs : list Z) (n : nat) :
  failed (callback w n url data) = false ->
  post_loop w (r :: rs) n data url = ([CallbackPost url data], inr true).
Proof.
  cbn. destruct (callback w n url data) as [e | resp]; cbn; [discriminate |].
  intros H. apply negb_false_iff in H. now rewrite H.
Qed.

(** ** The steps of a run *)

Lemma quiet_bind {A B} (m : M A) (k : A -> M B) :
  quiet m -> (forall a, quiet (k a)) -> quiet (bind m k).
Proof.
  unfold quiet, trace. destruct m as [t [e | a]]; cbn [bind fst]; intros Hm Hk;
    [assumption |].
  specialize (Hk a). destruct (k a) as [t' r]; cbn [fst] in *.
  now rewrite callback_posts_app, Hm, Hk.
Qed.

Ltac quiet_step :=
  match goal with
  | |- quiet (bind _ _) => apply quiet_bind; [| intros]
  | |- quiet (match ?x with _ => _ end) => destruct x
  | |- quiet (if ?b then _ else _) => destruct b
  | |- quiet _ => reflexivity
  end.

Lemma generate_app_code_quiet (w : world) (prompt : value) :
  quiet (generate_app_code w prompt).
Proof. unfold generate_app_code. repeat quiet_step. Qed.

Lemma save_code_to_file_quiet (w : world) (code : string) (task : value) :
  quiet (save_code_to_file w code task).
Proof. unfold save_code_to_file. repeat quiet_step. Qed.

Lemma stage_quiet (w : world) (task brief : value) : quiet (stage w task brief).
Proof.
  unfold stage, add_mit_license.
  apply quiet_bind; [apply generate_app_code_quiet | intros code].
  apply quiet_bind; [apply save_code_to_file_quiet | intros [folder file_path]].
  repeat quiet_step.
Qed.

Lemma init_git_and_push_quiet (w : world) (folder : string) (repo_name : value) :
  quiet (init_git_and_push w folder repo_name).
Proof. unfold init_git_and_push, run. repeat quiet_step. Qed.

(** What publication returns: the clone URL of the new repository, the
    branch name and the site URL built from the account name. *)
Lemma init_git_and_push_result (w : world) (folder : string) (repo_name : value)
  (repo_url commit_sha pages_url : string) :
  outcome (init_git_and_push w folder repo_name) = inr (repo_url, commit_sha, pages_url) ->
  create_repo w (GITHUB_TOKEN w) repo_name = inr repo_url
  /\ commit_sha = "main"
  /\ pages_url = "https://" ++ str_getenv (GITHUB_USERNAME w) ++ ".github.io/"
                 ++ str repo_name ++ "/".
Proof.
  unfold init_git_and_push, run.
  destruct (create_repo w (GITHUB_TOKEN w) repo_name) as [e | clone_url];
    cbn [call bind outcome snd]; [discriminate |].
  repeat match goal with
  | |- context [subprocess_run w ?argv folder] =>
      destruct (subprocess_run w argv folder); cbn [call bind outcome snd ret];
      [discriminate |]
  end.
  destruct (repo_edit w clone_url); cbn; [discriminate |].
  intros H; inversion H; auto.
Qed.

(** An accepted request runs the four steps in order. *)
Lemma generate_app_accepted (w : world) (items : list (string * value)) :
  all_present items = true ->
  secret_matches w items = true ->
  generate_app w (Body (VDict items))
  = (folder <- stage w (field items "task") (field items "brief") ;;
     '(repo_url, commit_sha, pages_url) <-
        init_git_and_push w folder (field items "task") ;;
     success <- post_to_evaluation_url w (notice items repo_url commit_sha pages_url)
                  (field items "evaluation_url") ;;
     if negb success then ret (error "Failed to post to evaluation_url after retries")
     else ret (completed repo_url pages_url)).
Proof.
  intros Hp Hs. unfold generate_app.
  rewrite (all_present_no_gap _ Hp), bind_lift.
  assert (Hk : forall f, In f required_fields ->
                         getitem (VDict items) f = inr (field items f)).
  { intros f Hf. apply has_key_field, all_present_has_key; assumption. }
  rewrite !Hk by (cbn; tauto).
  rewrite bind_lift.
  assert (Hsecret : eq_getenv (field items "secret") (STUDENT_SECRET w) = true).
  { unfold secret_matches in Hs. unfold field.
    destruct (lookup "secret" items); [assumption | discriminate]. }
  rewrite Hsecret. cbn [negb].
  rewrite !bind_lift.
  unfold stage. rewrite !bind_assoc.
  destruct (generate_app_code w (field items "brief")) as [t1 [e | code]];
    [reflexivity |].
  cbn [bind].
  destruct (save_code_to_file w code (field items "task")) as [t2 [e | [folder path]]];
    [reflexivity |].
  cbn [bind].
  destruct (call_ _ (write_file w (path_join folder ["README.md"]) _)) as [t3 [e | []]];
    [reflexivity |].
  cbn [bind].
  destruct (add_mit_license w folder) as [t4 [e | []]]; [reflexivity |].
  cbn [bind ret app].
  destruct (init_git_and_push w folder (field items "task")) as [t5 [e | [[r c] p]]];
    cbn [bind lift ret app]; [now rewrite ?app_nil_r, <- ?app_assoc |].
  unfold notice.
  destruct (post_to_evaluation_url w _ (field items "evaluation_url")) as [t6 [e | b]];
    [| destruct b]; cbn [bind negb ret app]; now rewrite ?app_nil_r, <- ?app_assoc.
Qed.

(** ** How a run ends *)

Lemma first_missing_in (data : value) (fields : list string) (f : string) :
  first_missing fields data = inr (Some f) -> In f fields.
Proof.
  induction fields as [| g fields IH]; cbn; [discriminate |].
  destruct (contains g data) as [e | []]; [discriminate | |].
  - intros H. right. auto.
  - intros H. inversion H. now left.
Qed.

Lemma no_gap_all_present (items : list (string * value)) :
  first_missing required_fields (VDict items) = inr None -> all_present items = true.
Proof.
  unfold all_present. generalize required_fields as fields.
  induction fields as [| f fields IH]; cbn; [reflexivity |].
  destruct (has_key f items); [auto | discriminate].
Qed.

(** The run of an accepted request whose first two steps went through. *)
Lemma generate_app_published (w : world) (items : list (string * value))
  (folder repo_url commit_sha pages_url : string) :
  all_present items = true ->
  secret_matches w items = true ->
  outcome (stage w (field items "task") (field items "brief")) = inr folder ->
  outcome (init_git_and_push w folder (field items "task"))
    = inr (repo_url, commit_sha, pages_url) ->
  exists success,
    outcome (post_to_evaluation_url w (notice items repo_url commit_sha pages_url)
               (field items "evaluation_url")) = inr success
    /\ generate_app w (Body (VDict items))
       = ((trace (stage w (field items "task") (field items "brief"))
           ++ trace (init_git_and_push w folder (field items "task"))
           ++ trace (post_to_evaluation_url w (notice items repo_url commit_sha pages_url)
                       (field items "evaluation_url")))%list,
          inr (if success then completed repo_url pages_url else error exhausted)).
Proof.
  intros Hp Hs Hstage Hpub.
  destruct (post_loop_returns w (notice items repo_url commit_sha pages_url)
              (field items "evaluation_url") retries 0) as [success Hpost].
  exists success. split; [exact Hpost |].
  rewrite (generate_app_accepted _ _ Hp Hs).
  rewrite (bind_return _ _ _ Hstage). cbn [trace outcome fst snd].
  rewrite (bind_return _ _ _ Hpub). cbn [trace outcome fst snd].
  rewrite (bind_return _ _ _ Hpost). cbn [trace outcome fst snd].
  destruct success; cbn [negb ret fst snd]; now rewrite app_nil_r.
Qed.

Lemma generate_app_stage_raises (w : world) (items : list (string * value)) (e : exn) :
  all_present items = true ->
  secret_matches w items = true ->
  outcome (stage w (field items "task") (field items "brief")) = inl e ->
  generate_app w (Body (VDict items))
  = (trace (stage w (field items "task") (field items "brief")), inl e).
Proof.
  intros Hp Hs Hstage.
  now rewrite (generate_app_accepted _ _ Hp Hs), (bind_raise _ _ _ Hstage).
Qed.

Lemma generate_app_publication_raises (w : world) (items : list (string * value))
  (folder : string) (e : exn) :
  all_present items = true ->
  secret_matches w items = true ->
  outcome (stage w (field items "task") (field items "brief")) = inr folder ->
  outcome (init_git_and_push w folder (field items "task")) = inl e ->
  generate_app w (Body (VDict items))
  = ((trace (stage w (field items "task") (field items "brief"))
      ++ trace (init_git_and_push w folder (field items "task")))%list, inl e).
Proof.
  intros Hp Hs Hstage Hpub.
  rewrite (generate_app_accepted _ _ Hp Hs), (bind_return _ _ _ Hstage).
  cbn [trace outcome fst snd].
  now rewrite (bind_raise _ _ _ Hpub).
Qed.

Lemma generate_app_ending (w : world) (req : request) : ending w req.
Proof.
  destruct req as [msg | data].
  - apply (Rejected _ _ ("Invalid JSON: " ++ msg)); [left; eauto | reflexivity].
  - destruct (first_missing required_fields data) as [e | [f |]] eqn:Hfm.
    + apply (Aborted _ _ e); unfold generate_app, quiet; now rewrite Hfm.
    + apply (Rejected _ _ ("Missing field: " ++ f)).
      * right; left. exists f. split; [eapply first_missing_in; eassumption | reflexivity].
      * unfold generate_app. now rewrite Hfm.
    + destruct data as [| b | n | r | s | l | items];
        try (apply (Aborted _ _ TypeError); unfold generate_app, quiet;
             now rewrite Hfm).
      pose proof (no_gap_all_present _ Hfm) as Hp.
      destruct (secret_matches w items) eqn:Hs.
      * destruct (stage w (field items "task") (field items "brief"))
          as [t1 [e | folder]] eqn:Hstage.
        -- apply (Aborted _ _ e).
           ++ rewrite (generate_app_stage_raises w items e Hp Hs); now rewrite Hstage.
           ++ unfold quiet.
              rewrite (generate_app_stage_raises w items e Hp Hs); [| now rewrite Hstage].
              apply stage_quiet.
        -- destruct (init_git_and_push w folder (field items "task"))
             as [t2 [e | [[r c] p]]] eqn:Hpub.
           ++ assert (Hrun := generate_app_publication_raises w items folder e Hp Hs).
              rewrite Hstage, Hpub in Hrun. specialize (Hrun eq_refl eq_refl).
              apply (Aborted _ _ e); unfold quiet; rewrite Hrun; [reflexivity |].
              cbn [trace fst]. rewrite callback_posts_app.
              pose proof (stage_quiet w (field items "task") (field items "brief")) as Q1.
              pose proof (init_git_and_push_quiet w folder (field items "task")) as Q2.
              unfold quiet in Q1, Q2. rewrite Hstage in Q1. rewrite Hpub in Q2.
              cbn [trace fst] in Q1, Q2. now rewrite Q1, Q2.
           ++ assert (Hrun := generate_app_published w items folder r c p Hp Hs).
              rewrite Hstage, Hpub in Hrun.
              destruct (Hrun eq_refl eq_refl) as (success & Hpost & Heq).
              apply (Delivered _ _ items folder r c p success); auto;
                rewrite ?Hstage, ?Hpub; auto.
      * apply (Rejected _ _ "Invalid secret"); [right; right; reflexivity |].
        destruct (has_key_lookup "secret" items) as [secret Hsecret];
          [apply all_present_has_key; [assumption | cbn; tauto] |].
        unfold secret_matches in Hs. rewrite Hsecret in Hs.
        unfold generate_app. rewrite Hfm, bind_lift.
        unfold getitem at 1. now rewrite Hsecret, bind_lift, Hs.
Qed.

(** ** Accepted and refused secrets *)

Lemma secret_matches_field (w : world) (items : list (string * value)) :
  all_present items = true ->
  secret_matches w items = eq_getenv (field items "secret") (STUDENT_SECRET w).
Proof.
  intros Hp.
  destruct (has_key_lookup "secret" items) as [secret Hsecret];
    [apply all_present_has_key; [assumption | cbn; tauto] |].
  unfold secret_matches, field. now rewrite Hsecret.
Qed.

Lemma generate_app_wrong_secret (w : world) (items : list (string * value)) :
  all_present items = true ->
  secret_matches w items = false ->
  generate_app w (Body (VDict items)) = ([], inr (error "Invalid secret")).
Proof.
  intros Hp Hs.
  destruct (has_key_lookup "secret" items) as [secret Hsecret];
    [apply all_present_has_key; [assumption | cbn; tauto] |].
  unfold secret_matches in Hs. rewrite Hsecret in Hs.
  unfold generate_app. rewrite (all_present_no_gap _ Hp), bind_lift.
  unfold getitem at 1. now rewrite Hsecret, bind_lift, Hs.
Qed.

(** An accepted request ends in an exception, in the response of a
    completed run or in the error of the dispatcher. *)
Lemma generate_app_accepted_outcome (w : world) (items : list (string * value)) :
  all_present items = true ->
  secret_matches w items = true ->
  (exists e, outcome (generate_app w (Body (VDict items))) = inl e)
  \/ (exists repo_url pages_url,
        outcome (generate_app w (Body (VDict items))) = inr (completed repo_url pages_url))
  \/ outcome (generate_app w (Body (VDict items))) = inr (error exhausted).
Proof.
  intros Hp Hs.
  destruct (outcome (stage w (field items "task") (field items "brief")))
    as [e | folder] eqn:Hstage.
  { left. exists e. now rewrite (generate_app_stage_raises w items e Hp Hs Hstage). }
  destruct (outcome (init_git_and_push w folder (field items "task")))
    as [e | [[r c] p]] eqn:Hpub.
  { left. exists e.
    now rewrite (generate_app_publication_raises w items folder e Hp Hs Hstage Hpub). }
  destruct (generate_app_published w items folder r c p Hp Hs Hstage Hpub)
    as ([|] & _ & ->); cbn [outcome snd]; eauto.
Qed.

Lemma trace_bind_prefix {A B} (m : M A) (k : A -> M B) :
  exists rest, trace (bind m k) = (trace m ++ rest)%list.
Proof.
  destruct m as [t [e | a]]; cbn [bind trace fst].
  - exists []. now rewrite app_nil_r.
  - destruct (k a) as [t' r]. now exists t'.
Qed.

(** The run of an accepted request starts with the synthesis call. *)
Lemma generate_app_accepted_synthesis (w : world) (items : list (string * value)) :
  all_present items = true ->
  secret_matches w items = true ->
  exists rest,
    trace (generate_app w (Body (VDict items)))
    = (trace (generate_app_code w (field items "brief")) ++ rest)%list.
Proof.
  intros Hp Hs. rewrite (generate_app_accepted _ _ Hp Hs).
  unfold stage. rewrite bind_assoc. apply trace_bind_prefix.
Qed.

(** ** Exhausted retries and failed synthesis *)

Lemma callback_posts_silent (t : list event) :
  callback_posts (silent t) = callback_posts t.
Proof.
  unfold callback_posts, silent. induction t as [| [] t IH]; cbn; congruence.
Qed.

Lemma sleeps_silent (t : list event) : sleeps (silent t) = sleeps t.
Proof.
  unfold sleeps, silent. induction t as [| [] t IH]; cbn; congruence.
Qed.

(** Four failed attempts: four POSTs, each followed by its sleep. *)
Lemma post_to_evaluation_url_exhausted (w : world) (data url : value) :
  (forall n, (n < 4)%nat -> failed (callback w n url data) = true) ->
  outcome (post_to_evaluation_url w data url) = inr false
  /\ silent (trace (post_to_evaluation_url w data url))
     = [CallbackPost url data; Sleep 1; CallbackPost url data; Sleep 2;
        CallbackPost url data; Sleep 4; CallbackPost url data; Sleep 8].
Proof.
  intros H. unfold post_to_evaluation_url, retries.
  destruct (post_loop_failed w data url 1 [2; 4; 8] 0 (H 0%nat ltac:(lia))) as [O0 T0].
  destruct (post_loop_failed w data url 2 [4; 8] 1 (H 1%nat ltac:(lia))) as [O1 T1].
  destruct (post_loop_failed w data url 4 [8] 2 (H 2%nat ltac:(lia))) as [O2 T2].
  destruct (post_loop_failed w data url 8 [] 3 (H 3%nat ltac:(lia))) as [O3 T3].
  rewrite O0, O1, O2, O3, T0, T1, T2, T3. split; reflexivity.
Qed.

(** Two failed attempts and a successful one. *)
Lemma post_to_evaluation_url_third (w : world) (data url : value) :
  failed (callback w 0 url data) = true ->
  failed (callback w 1 url data) = true ->
  failed (callback w 2 url data) = false ->
  outcome (post_to_evaluation_url w data url) = inr true
  /\ silent (trace (post_to_evaluation_url w data url))
     = [CallbackPost url data; Sleep 1; CallbackPost url data; Sleep 2;
        CallbackPost url data].
Proof.
  intros H0 H1 H2. unfold post_to_evaluation_url, retries.
  destruct (post_loop_failed w data url 1 [2; 4; 8] 0 H0) as [O0 T0].
  destruct (post_loop_failed w data url 2 [4; 8] 1 H1) as [O1 T1].
  pose proof (post_loop_succeeded w data url 4 [8] 2 H2) as E2.
  rewrite O0, O1, T0, T1, E2. split; reflexivity.
Qed.

Lemma generate_app_code_unconfigured (w : world) (prompt : value) :
  configured w = false ->
  generate_app_code w prompt
  = ([], inl (ValueError
                "Missing AI_PIPE_API_URL or AI_PIPE_API_KEY environment variables.")).
Proof.
  unfold configured, generate_app_code. intros H. apply negb_false_iff in H.
  now rewrite H.
Qed.

Lemma generate_app_code_bad_status (w : world) (prompt : value) (resp : response) :
  configured w = true ->
  backend_answer w prompt = inr resp ->
  status_code resp <> 200 ->
  outcome (generate_app_code w prompt)
  = inl (RuntimeError ("AI Pipe request failed: " ++ str_of_Z (status_code resp)
                       ++ " " ++ text resp)).
Proof.
  unfold configured, backend_answer, generate_app_code.
  intros H Hresp Hstatus. apply negb_true_iff in H. rewrite H, Hresp.
  apply Z.eqb_neq in Hstatus. cbn [call bind]. now rewrite Hstatus.
Qed.

Lemma generate_app_code_malformed (w : world) (prompt : value) (resp : response)
  (data : value) :
  configured w = true ->
  backend_answer w prompt = inr resp ->
  status_code resp = 200 ->
  json resp = inr data ->
  extract_content data = inl KeyError \/ extract_content data = inl IndexError ->
  outcome (generate_app_code w prompt)
  = inl (RuntimeError ("Unexpected AI Pipe response: " ++ str data)).
Proof.
  unfold configured, backend_answer, generate_app_code.
  intros H Hresp Hstatus Hjson Hdata. apply negb_true_iff in H. rewrite H, Hresp.
  apply Z.eqb_eq in Hstatus. cbn [call bind]. rewrite Hstatus, Hjson.
  cbn [negb lift bind]. destruct Hdata as [-> | ->]; reflexivity.
Qed.

Lemma stage_synthesis_raises (w : world) (task brief : value) (e : exn) :
  outcome (generate_app_code w brief) = inl e -> outcome (stage w task brief) = inl e.
Proof.
  intros H. unfold stage. now rewrite (bind_raise _ _ _ H).
Qed.

Lemma length_append (s t : string) :
  String.length (s ++ t) = (String.length s + String.length t)%nat.
Proof.
  induction s as [| c s IH]; cbn; [reflexivity | now rewrite IH].
Qed.

(** ** The claims *)

(** C3. Against a callback that never answers 200 (another status or an
    exception, at each of the four attempts) the dispatcher posts exactly
    four times, sleeping 1, 2, 4 and 8 seconds, each sleep right after the
    attempt that failed, and returns [False].  Against a callback that first
    answers 200 at the third attempt it posts exactly three times, sleeps 1
    and 2 seconds after the first two, and returns [True] right after the
    third POST: no further attempt, no further sleep. *)
Theorem retry_schedule (w : world) (data url : value) :
  let run := post_to_evaluation_url w data url in
  let post := CallbackPost url data in
  ((forall n, (n < 4)%nat -> failed (callback w n url data) = true) ->
   outcome run = inr false
   /\ silent (trace run)
      = [post; Sleep 1; post; Sleep 2; post; Sleep 4; post; Sleep 8]
   /\ length (callback_posts (trace run)) = 4%nat
   /\ sleeps (trace run) = [1; 2; 4; 8])
  /\ (failed (callback w 0 url data) = true ->
      failed (callback w 1 url data) = true ->
      failed (callback w 2 url data) = false ->
      outcome run = inr true
      /\ silent (trace run) = [post; Sleep 1; post; Sleep 2; post]
      /\ length (callback_posts (trace run)) = 3%nat
      /\ sleeps (trace run) = [1; 2]).
Proof.
  cbv zeta. split.
  - intros H. destruct (post_to_evaluation_url_exhausted w data url H) as [O T].
    rewrite <- callback_posts_silent, <- sleeps_silent, T, O. repeat split.
  - intros H0 H1 H2.
    destruct (post_to_evaluation_url_third w data url H0 H1 H2) as [O T].
    rewrite <- callback_posts_silent, <- sleeps_silent, T, O. repeat split.
Qed.

Lemma retry_schedule_witness :
  outcome (post_to_evaluation_url Scenario.deaf VNone VNone) = inr false
  /\ sleeps (trace (post_to_evaluation_url Scenario.deaf VNone VNone)) = [1; 2; 4; 8]
  /\ outcome (post_to_evaluation_url Scenario.third_time VNone VNone) = inr true
  /\ sleeps (trace (post_to_evaluation_url Scenario.third_time VNone VNone)) = [1; 2].
Proof.
  destruct (retry_schedule Scenario.deaf VNone VNone) as [Hdeaf _].
  destruct (retry_schedule Scenario.third_time VNone VNone) as [_ Hthird].
  destruct Hdeaf as (? & _ & _ & ?); [intros n _; reflexivity |].
  destruct Hthird as (? & _ & _ & ?); [reflexivity | reflexivity | reflexivity |].
  repeat split; assumption.
Defined.

(** C8. Every POST of one run of the dispatcher carries the url and the
    body the dispatcher was given, and any two POSTs to the callback within
    one run of the handler go to the same url with the same body, a notice
    of the seven keys email, task, round, nonce, repo_url, commit_sha and
    pages_url; equal bodies serialize to equal bytes, whatever the
    serializer. *)
Theorem notice_identical (w : world) :
  (forall data url p,
     In p (callback_posts (trace (post_to_evaluation_url w data url))) -> p = (url, data))
  /\ (forall req url1 body1 url2 body2,
        In (url1, body1) (callback_posts (trace (generate_app w req))) ->
        In (url2, body2) (callback_posts (trace (generate_app w req))) ->
        url1 = url2 /\ body1 = body2
        /\ (forall serialize : value -> string, serialize body1 = serialize body2)
        /\ exists items repo_url commit_sha pages_url,
             req = Body (VDict items)
             /\ body1 = notice items repo_url commit_sha pages_url).
Proof.
  assert (Hloop : forall data url p,
            In p (callback_posts (trace (post_to_evaluation_url w data url))) ->
            p = (url, data)).
  { intros data url p Hin.
    pose proof (post_loop_posts w data url retries 0) as H.
    rewrite Forall_forall in H. symmetry. now apply H. }
  split; [exact Hloop |].
  intros req url1 body1 url2 body2 H1 H2.
  destruct (generate_app_ending w req)
    as [msg _ Hrun | e _ Hq | items folder r c p success -> _ _ _ _ _ Hrun].
  - rewrite Hrun in H1. destruct H1.
  - unfold quiet in Hq. rewrite Hq in H1. destruct H1.
  - rewrite Hrun in H1, H2. cbn [trace fst] in H1, H2.
    rewrite !callback_posts_app in H1, H2.
    pose proof (stage_quiet w (field items "task") (field items "brief")) as Q1.
    pose proof (init_git_and_push_quiet w folder (field items "task")) as Q2.
    unfold quiet in Q1, Q2. rewrite Q1, Q2 in H1, H2. cbn [app] in H1, H2.
    apply Hloop in H1, H2. inversion H1; inversion H2; subst.
    repeat split; eauto 6.
Qed.

Lemma notice_identical_witness :
  let posts := callback_posts (trace (generate_app Scenario.third_time Scenario.demo)) in
  let body :=
    notice Scenario.demo_items "https://github.com/user/demo1.git" "main"
      "https://user.github.io/demo1/" in
  posts = [(VStr "http://eval/cb", body); (VStr "http://eval/cb", body);
           (VStr "http://eval/cb", body)]
  /\ forall serialize : value -> string, serialize body = serialize body.
Proof.
  split; [reflexivity |].
  refine (proj1 (proj2 (proj2 (proj2 (notice_identical Scenario.third_time)
                                 Scenario.demo (VStr "http://eval/cb") _
                                 (VStr "http://eval/cb") _ _ _)))).
  - left. reflexivity.
  - right. left. reflexivity.
Defined.

(** C2. A request from which one of the seven required fields is missing
    is answered with the error that names a missing field, and the handler
    makes no call at all: no synthesis, no write, no publication, no
    notification. *)
Theorem missing_field_rejected (w : world) (data : value) (f : string) :
  In f required_fields ->
  contains f data = inr false ->
  exists g,
    In g required_fields
    /\ contains g data = inr false
    /\ generate_app w (Body data) = ([], inr (error ("Missing field: " ++ g))).
Proof.
  intros Hin Hf.
  destruct (first_gap data required_fields f Hin Hf) as (before & g & after & E & Hb & Hg).
  exists g. repeat split.
  - rewrite E. apply in_elt.
  - exact Hg.
  - unfold generate_app. rewrite E, (first_missing_split _ _ _ _ Hb Hg). reflexivity.
Qed.

Lemma missing_field_rejected_witness :
  exists g,
    In g required_fields
    /\ contains g (VDict [("email", VStr "a@b.com"); ("secret", VStr "S")]) = inr false
    /\ generate_app Scenario.good (Body (VDict [("email", VStr "a@b.com"); ("secret", VStr "S")]))
       = ([], inr (error ("Missing field: " ++ g))).
Proof.
  apply (missing_field_rejected Scenario.good _ "nonce").
  - cbn. tauto.
  - reflexivity.
Defined.

(** C10. A body that does not parse as JSON is answered with the error
    "Invalid JSON: ..." and no call is made.  The required fields are
    examined in the order email, secret, task, round, nonce, brief,
    evaluation_url, and the error names the first of them that is missing:
    the one before which every field is present. *)
Theorem invalid_json_and_field_order (w : world) :
  (forall e, generate_app w (BadJSON e) = ([], inr (error ("Invalid JSON: " ++ e))))
  /\ required_fields
     = ["email"; "secret"; "task"; "round"; "nonce"; "brief"; "evaluation_url"]
  /\ (forall data before f after,
        required_fields = (before ++ f :: after)%list ->
        (forall g, In g before -> contains g data = inr true) ->
        contains f data = inr false ->
        generate_app w (Body data) = ([], inr (error ("Missing field: " ++ f)))).
Proof.
  repeat split.
  intros data before f after E Hb Hf.
  unfold generate_app. now rewrite E, (first_missing_split _ _ _ _ Hb Hf).
Qed.

Lemma invalid_json_and_field_order_witness :
  generate_app Scenario.good
    (Body (VDict [("email", VStr "a@b.com"); ("secret", VStr "S"); ("nonce", VStr "n1")]))
  = ([], inr (error "Missing field: task")).
Proof.
  apply (proj2 (proj2 (invalid_json_and_field_order Scenario.good))
           _ ["email"; "secret"] "task" ["round"; "nonce"; "brief"; "evaluation_url"]).
  - reflexivity.
  - intros g [<- | [<- | []]]; reflexivity.
  - reflexivity.
Defined.

(** C6. A request that has all seven fields and whose secret is not equal
    to the configured one is answered with the error "Invalid secret", and
    the handler makes no call at all, whatever the other fields hold. *)
Theorem wrong_secret_rejected (w : world) (items : list (string * value)) :
  all_present items = true ->
  secret_matches w items = false ->
  generate_app w (Body (VDict items)) = ([], inr (error "Invalid secret")).
Proof. apply generate_app_wrong_secret. Qed.

Lemma wrong_secret_rejected_witness :
  generate_app (Scenario.with_secret (Some "T") Scenario.good) Scenario.demo
  = ([], inr (error "Invalid secret")).
Proof.
  apply wrong_secret_rejected; reflexivity.
Defined.

(** C9. The secret check is the equality of the request's secret with what
    the environment holds, and nothing else: a request with all seven
    fields is answered "Invalid secret" exactly when the two differ.  With
    the variable unset the configured value is [None]: a request whose
    secret is JSON null then passes the check, the run going on to the
    synthesis step, and every request whose secret is a string is
    rejected. *)
Theorem secret_check_is_equality (w : world) (items : list (string * value)) :
  all_present items = true ->
  let run := generate_app w (Body (VDict items)) in
  (run = ([], inr (error "Invalid secret"))
   <-> eq_getenv (field items "secret") (STUDENT_SECRET w) = false)
  /\ (STUDENT_SECRET w = None ->
      (field items "secret" = VNone ->
       outcome run <> inr (error "Invalid secret")
       /\ exists rest,
            trace run = (trace (generate_app_code w (field items "brief")) ++ rest)%list)
      /\ (forall s, field items "secret" = VStr s ->
          run = ([], inr (error "Invalid secret")))).
Proof.
  intros Hp run. subst run.
  pose proof (secret_matches_field w items Hp) as Hm.
  assert (Hpass : secret_matches w items = true ->
                  outcome (generate_app w (Body (VDict items)))
                  <> inr (error "Invalid secret")).
  { intros Hs Hout.
    destruct (generate_app_accepted_outcome w items Hp Hs) as [[e H] | [(r & p & H) | H]];
      rewrite H in Hout; discriminate. }
  split; [split |].
  - intros Hrun. destruct (secret_matches w items) eqn:Hs; [| congruence].
    exfalso. apply (Hpass eq_refl). now rewrite Hrun.
  - intros Hne. apply generate_app_wrong_secret; congruence.
  - intros Hnone. split.
    + intros Hnull.
      assert (Hs : secret_matches w items = true) by (now rewrite Hm, Hnull, Hnone).
      split; [now apply Hpass | now apply generate_app_accepted_synthesis].
    + intros s Hstr. apply generate_app_wrong_secret; [assumption |].
      now rewrite Hm, Hstr, Hnone.
Qed.

Lemma secret_check_is_equality_witness :
  generate_app Scenario.no_secret Scenario.demo = ([], inr (error "Invalid secret"))
  /\ outcome (generate_app Scenario.no_secret (Body (VDict Scenario.null_secret_items)))
     <> inr (error "Invalid secret").
Proof.
  split.
  - destruct (secret_check_is_equality Scenario.no_secret Scenario.demo_items eq_refl)
      as [_ H].
    destruct (H eq_refl) as [_ Hstr]. exact (Hstr "S" eq_refl).
  - destruct (secret_check_is_equality Scenario.no_secret Scenario.null_secret_items
                eq_refl) as [_ H].
    destruct (H eq_refl) as [Hnull _]. exact (proj1 (Hnull eq_refl)).
Defined.

(** C1, the counterexample.  When [git push] exits with status 128 the
    handler answers that the task completed and has posted to the
    evaluation callback; when [git push] cannot be run, the handler raises
    the exception: in neither run is the response an [{error: ...}]. *)
Lemma push_failure_not_reported :
  subprocess_run Scenario.push_rejected Scenario.push_argv "/srv/generated_app/demo1"
  = inr 128
  /\ outcome (generate_app Scenario.push_rejected Scenario.demo)
     = inr (completed "https://github.com/user/demo1.git" "https://user.github.io/demo1/")
  /\ length (callback_posts (trace (generate_app Scenario.push_rejected Scenario.demo)))
     = 1%nat
  /\ outcome (generate_app Scenario.push_raises Scenario.demo)
     = inl (Raised "OSError" "cannot run git")
  /\ ~ (exists msg,
          outcome (generate_app Scenario.push_rejected Scenario.demo) = inr (error msg))
  /\ ~ (exists msg,
          outcome (generate_app Scenario.push_raises Scenario.demo) = inr (error msg)).
Proof.
  repeat apply conj; try reflexivity; intros [msg H]; vm_compute in H; discriminate.
Qed.

(** C1, amended.  When a step of publication raises (the creation of the
    repository, a git command that cannot be run, the enabling of the
    site), the exception leaves the handler as it is: the handler returns no
    response, and no POST to the evaluation callback is made for that
    submission. *)
Theorem publication_exception_propagates (w : world) (items : list (string * value))
  (folder : string) (e : exn) :
  all_present items = true ->
  secret_matches w items = true ->
  outcome (stage w (field items "task") (field items "brief")) = inr folder ->
  outcome (init_git_and_push w folder (field items "task")) = inl e ->
  outcome (generate_app w (Body (VDict items))) = inl e
  /\ callback_posts (trace (generate_app w (Body (VDict items)))) = [].
Proof.
  intros Hp Hs Hstage Hpub.
  rewrite (generate_app_publication_raises w items folder e Hp Hs Hstage Hpub).
  split; [reflexivity |]. cbn [trace fst]. rewrite callback_posts_app.
  pose proof (stage_quiet w (field items "task") (field items "brief")) as Q1.
  pose proof (init_git_and_push_quiet w folder (field items "task")) as Q2.
  unfold quiet in Q1, Q2. now rewrite Q1, Q2.
Qed.

Lemma publication_exception_propagates_witness :
  outcome (generate_app Scenario.push_raises Scenario.demo)
  = inl (Raised "OSError" "cannot run git")
  /\ callback_posts (trace (generate_app Scenario.push_raises Scenario.demo)) = [].
Proof.
  apply (publication_exception_propagates Scenario.push_raises Scenario.demo_items
           "/srv/generated_app/demo1");
    reflexivity.
Defined.

(** C4, the counterexample.  With the code-generation backend not
    configured the handler raises [ValueError]; it returns no
    [{error: ...}]. *)
Lemma synthesis_failure_not_returned :
  outcome (generate_app Scenario.unconfigured Scenario.demo)
  = inl (ValueError "Missing AI_PIPE_API_URL or AI_PIPE_API_KEY environment variables.")
  /\ ~ (exists msg,
          outcome (generate_app Scenario.unconfigured Scenario.demo) = inr (error msg)).
Proof.
  split; [reflexivity |]. intros [msg H]. vm_compute in H. discriminate.
Qed.

(** C4, amended.  A failure of synthesis (backend not configured, a status
    other than 200, a response without the content field) and a step of
    publication that raises are not returned: the exception, which names the
    failure, leaves the handler.  Whatever the handler does return is the
    response of a completed run or a structured [{error: <message>}], the
    message being one of the validation messages or the message of the
    exhausted dispatcher. *)
Theorem failures_returned_or_raised (w : world) (items : list (string * value)) :
  all_present items = true ->
  secret_matches w items = true ->
  let brief := field items "brief" in
  let run := generate_app w (Body (VDict items)) in
  (configured w = false ->
   outcome run
   = inl (ValueError "Missing AI_PIPE_API_URL or AI_PIPE_API_KEY environment variables."))
  /\ (forall resp,
        configured w = true ->
        backend_answer w brief = inr resp ->
        status_code resp <> 200 ->
        outcome run
        = inl (RuntimeError ("AI Pipe request failed: " ++ str_of_Z (status_code resp)
                             ++ " " ++ text resp)))
  /\ (forall resp data,
        configured w = true ->
        backend_answer w brief = inr resp ->
        status_code resp = 200 ->
        json resp = inr data ->
        extract_content data = inl KeyError \/ extract_content data = inl IndexError ->
        outcome run = inl (RuntimeError ("Unexpected AI Pipe response: " ++ str data)))
  /\ (forall folder e,
        outcome (stage w (field items "task") brief) = inr folder ->
        outcome (init_git_and_push w folder (field items "task")) = inl e ->
        outcome run = inl e)
  /\ (forall req r,
        outcome (generate_app w req) = inr r ->
        (exists repo_url pages_url, r = completed repo_url pages_url)
        \/ (exists msg, r = error msg /\ (validation_message msg \/ msg = exhausted))).
Proof.
  intros Hp Hs brief run. subst brief run.
  assert (Hsynth : forall e,
            outcome (generate_app_code w (field items "brief")) = inl e ->
            outcome (generate_app w (Body (VDict items))) = inl e).
  { intros e H.
    now rewrite (generate_app_stage_raises w items e Hp Hs
                   (stage_synthesis_raises w _ _ e H)). }
  repeat apply conj.
  - intros Hc. apply Hsynth. now rewrite generate_app_code_unconfigured.
  - intros resp Hc Hresp Hstatus. apply Hsynth.
    now apply generate_app_code_bad_status.
  - intros resp data Hc Hresp Hstatus Hjson Hdata. apply Hsynth.
    now apply (generate_app_code_malformed w _ resp data).
  - intros folder e Hstage Hpub.
    now rewrite (generate_app_publication_raises w items folder e Hp Hs Hstage Hpub).
  - intros req r Hr.
    destruct (generate_app_ending w req)
      as [msg Hmsg Hrun | e He _ | items' folder rp c p success _ _ _ _ _ _ Hrun].
    + rewrite Hrun in Hr. inversion Hr. right. eauto.
    + congruence.
    + rewrite Hrun in Hr. inversion Hr. destruct success; [left | right]; eauto.
Qed.

Lemma failures_returned_or_raised_witness :
  outcome (generate_app Scenario.unconfigured Scenario.demo)
  = inl (ValueError "Missing AI_PIPE_API_URL or AI_PIPE_API_KEY environment variables.").
Proof.
  apply (failures_returned_or_raised Scenario.unconfigured Scenario.demo_items);
    reflexivity.
Defined.

(** C5. When publication has succeeded and all four attempts of the
    dispatcher fail, the handler raises nothing: it returns the error
    "Failed to post to evaluation_url after retries", after the calls of
    synthesis, storage and publication and then nothing but the
    dispatcher's four POSTs, prints and sleeps, so that nothing undoes the
    publication.  That response is a failure mode of its own: no validation
    message equals it, a failure of synthesis, storage or publication is
    raised and not returned, and a run that returns it has published. *)
Theorem notification_failure_distinct (w : world) :
  (forall items folder repo_url commit_sha pages_url,
     all_present items = true ->
     secret_matches w items = true ->
     outcome (stage w (field items "task") (field items "brief")) = inr folder ->
     outcome (init_git_and_push w folder (field items "task"))
       = inr (repo_url, commit_sha, pages_url) ->
     (forall n, (n < 4)%nat ->
        failed (callback w n (field items "evaluation_url")
                  (notice items repo_url commit_sha pages_url)) = true) ->
     outcome (generate_app w (Body (VDict items))) = inr (error exhausted)
     /\ exists t,
          trace (generate_app w (Body (VDict items)))
          = (trace (stage w (field items "task") (field items "brief"))
             ++ trace (init_git_and_push w folder (field items "task")) ++ t)%list
          /\ forallb notifying t = true
          /\ length (callback_posts t) = 4%nat)
  /\ ~ validation_message exhausted
  /\ (forall req,
        outcome (generate_app w req) = inr (error exhausted) ->
        exists items folder repo_url commit_sha pages_url,
          req = Body (VDict items)
          /\ outcome (stage w (field items "task") (field items "brief")) = inr folder
          /\ outcome (init_git_and_push w folder (field items "task"))
             = inr (repo_url, commit_sha, pages_url)
          /\ outcome (post_to_evaluation_url w (notice items repo_url commit_sha pages_url)
                        (field items "evaluation_url")) = inr false).
Proof.
  assert (Hdistinct : ~ validation_message exhausted).
  { intros [[e H] | [(f & _ & H) | H]]; discriminate. }
  repeat apply conj; [| exact Hdistinct |].
  - intros items folder r c p Hp Hs Hstage Hpub Hfail.
    destruct (generate_app_published w items folder r c p Hp Hs Hstage Hpub)
      as (success & Hpost & Hrun).
    destruct (post_to_evaluation_url_exhausted w _ _ Hfail) as [O T].
    rewrite O in Hpost. inversion Hpost; subst success.
    rewrite Hrun. split; [reflexivity |].
    eexists. split; [reflexivity |]. split.
    + apply post_loop_notifying.
    + now rewrite <- callback_posts_silent, T.
  - intros req Hout.
    destruct (generate_app_ending w req)
      as [msg Hmsg Hrun | e He _ | items folder r c p success -> _ _ Hstage Hpub Hpost Hrun].
    + rewrite Hrun in Hout. inversion Hout; subst msg. contradiction.
    + congruence.
    + rewrite Hrun in Hout. destruct success; [discriminate |].
      exists items, folder, r, c, p. auto.
Qed.

Lemma notification_failure_distinct_witness :
  outcome (generate_app Scenario.deaf Scenario.demo) = inr (error exhausted).
Proof.
  apply (proj1 (notification_failure_distinct Scenario.deaf) Scenario.demo_items
           "/srv/generated_app/demo1" "https://github.com/user/demo1.git" "main"
           "https://user.github.io/demo1/");
    reflexivity.
Defined.

(** Publication whose last call, the one that enables the site, raises. *)
Lemma init_git_and_push_site_raises (w : world) (folder : string) (repo_name : value)
  (clone_url : string) (e : exn) :
  create_repo w (GITHUB_TOKEN w) repo_name = inr clone_url ->
  (forall argv, exists status, subprocess_run w argv folder = inr status) ->
  repo_edit w clone_url = Some e ->
  init_git_and_push w folder repo_name
  = (publication_calls (GITHUB_TOKEN w) repo_name folder clone_url, inl e).
Proof.
  intros Hcreate Hrun Hedit. unfold init_git_and_push, run. rewrite Hcreate.
  cbn [call bind].
  repeat match goal with
  | |- context [subprocess_run w ?argv folder] =>
      let status := fresh "status" in
      let H := fresh "H" in
      destruct (Hrun argv) as [status H]; rewrite H; clear H; cbn [call bind ret app]
  end.
  rewrite Hedit. reflexivity.
Qed.

(** C7. The end-to-end run does not complete.  For a request that passes
    validation, with synthesis and storage gone through, the repository
    created and every git command run, the call that enables the site is the
    last call of the run whenever it raises: its exception leaves the
    handler, which returns no response and makes no POST to the evaluation
    callback.  With PyGithub that call, [repo.edit(has_pages=True)], raises
    TypeError. *)
Theorem end_to_end_stops_at_site_call (w : world) (items : list (string * value))
  (folder clone_url : string) (e : exn) :
  all_present items = true ->
  secret_matches w items = true ->
  outcome (stage w (field items "task") (field items "brief")) = inr folder ->
  create_repo w (GITHUB_TOKEN w) (field items "task") = inr clone_url ->
  (forall argv, exists status, subprocess_run w argv folder = inr status) ->
  repo_edit w clone_url = Some e ->
  let run := generate_app w (Body (VDict items)) in
  outcome run = inl e
  /\ callback_posts (trace run) = []
  /\ trace run
     = (trace (stage w (field items "task") (field items "brief"))
        ++ publication_calls (GITHUB_TOKEN w) (field items "task") folder clone_url)%list.
Proof.
  intros Hp Hs Hstage Hcreate Hrun Hedit run. subst run.
  pose proof (init_git_and_push_site_raises w folder _ clone_url e Hcreate Hrun Hedit)
    as Hpub.
  rewrite (generate_app_publication_raises w items folder e Hp Hs Hstage)
    by (now rewrite Hpub).
  rewrite Hpub. cbn [outcome trace fst snd]. repeat apply conj; try reflexivity.
  rewrite callback_posts_app.
  pose proof (stage_quiet w (field items "task") (field items "brief")) as Q.
  unfold quiet in Q. now rewrite Q.
Qed.

Lemma end_to_end_stops_at_site_call_witness :
  outcome (generate_app Scenario.pygithub Scenario.demo) = inl TypeError
  /\ callback_posts (trace (generate_app Scenario.pygithub Scenario.demo)) = [].
Proof.
  destruct (end_to_end_stops_at_site_call Scenario.pygithub Scenario.demo_items
              "/srv/generated_app/demo1" "https://github.com/user/demo1.git" TypeError)
    as (Hout & Hposts & _); try reflexivity.
  - intros argv. exists 0. reflexivity.
  - split; assumption.
Defined.

(** ** More of the code: the generator *)

Lemma list_ascii_of_string_app (s t : string) :
  list_ascii_of_string (s ++ t)
  = (list_ascii_of_string s ++ list_ascii_of_string t)%list.
Proof.
  induction s as [| c s IH]; cbn; [reflexivity | now rewrite IH].
Qed.

Lemma string_of_list_ascii_app (l m : list ascii) :
  string_of_list_ascii (l ++ m) = string_of_list_ascii l ++ string_of_list_ascii m.
Proof.
  induction l as [| c l IH]; cbn; [reflexivity | now rewrite IH].
Qed.

Lemma rev_string_involutive (s : string) : rev_string (rev_string s) = s.
Proof.
  unfold rev_string.
  now rewrite list_ascii_of_string_of_list_ascii, rev_involutive,
    string_of_list_ascii_of_string.
Qed.

Lemma rev_string_app (s t : string) :
  rev_string (s ++ t) = rev_string t ++ rev_string s.
Proof.
  unfold rev_string.
  now rewrite list_ascii_of_string_app, rev_app_distr, string_of_list_ascii_app.
Qed.

Lemma lstrip_head (s : string) (c : ascii) (rest : string) :
  lstrip s = String c rest -> isspace c = false.
Proof.
  induction s as [| d s IH]; cbn; [discriminate |].
  destruct (isspace d) eqn:Hd; [exact IH |].
  intros H. inversion H; subst. exact Hd.
Qed.

Lemma lstrip_idempotent (s : string) : lstrip (lstrip s) = lstrip s.
Proof.
  destruct (lstrip s) as [| c rest] eqn:H; [reflexivity |].
  cbn. now rewrite (lstrip_head _ _ _ H).
Qed.

Lemma lstrip_split (s : string) : exists ws, s = ws ++ lstrip s.
Proof.
  induction s as [| c s [ws IH]]; [now exists EmptyString |].
  cbn. destruct (isspace c).
  - exists (String c ws). cbn. now rewrite <- IH.
  - now exists EmptyString.
Qed.

Lemma strip_stripped (s : string) : stripped (strip s).
Proof.
  unfold stripped, strip. set (a := lstrip s). set (r := lstrip (rev_string a)).
  split.
  - destruct (lstrip_split (rev_string a)) as [ws Hws]. fold r in Hws.
    assert (Ha : a = rev_string r ++ rev_string ws).
    { rewrite <- (rev_string_involutive a), Hws. apply rev_string_app. }
    destruct (rev_string r) as [| c b] eqn:Hb; [reflexivity |].
    assert (Hc : isspace c = false).
    { apply (lstrip_head a c (b ++ rev_string ws)).
      unfold a at 1. rewrite lstrip_idempotent. exact Ha. }
    cbn. now rewrite Hc.
  - rewrite rev_string_involutive. apply lstrip_idempotent.
Qed.

(** How the generator returns: one request, answered 200 with a content
    that is a str. *)
Lemma generate_app_code_returns (w : world) (prompt : value) (code : string) :
  outcome (generate_app_code w prompt) = inr code ->
  configured w = true
  /\ exists resp data content,
       backend_answer w prompt = inr resp
       /\ status_code resp = 200
       /\ json resp = inr data
       /\ extract_content data = inr (VStr content)
       /\ code = strip content.
Proof.
  unfold generate_app_code, configured, backend_answer.
  destruct (not_getenv (AI_PIPE_API_URL w) || not_getenv (AI_PIPE_API_KEY w));
    [discriminate |].
  destruct (ai_pipe w _ _ _) as [e | resp]; [discriminate |].
  cbn [call bind]. destruct (status_code resp =? 200) eqn:Hstatus; [| discriminate].
  cbn [negb]. destruct (json resp) as [e | data] eqn:Hjson; [discriminate |].
  cbn [lift bind].
  destruct (extract_content data) as [[] | []] eqn:Hdata; try discriminate.
  cbn. intros H. inversion H. split; [reflexivity |].
  exists resp, data, s. apply Z.eqb_eq in Hstatus. repeat split; auto.
Qed.

(** The generator sends nothing, or one request to the configured URL. *)
Lemma generate_app_code_trace (w : world) (prompt : value) :
  trace (generate_app_code w prompt)
  = if configured w
    then [SynthesisPost (str_getenv (AI_PIPE_API_URL w))
            [("Authorization", "Bearer " ++ str_getenv (AI_PIPE_API_KEY w));
             ("Content-Type", "application/json")]
            (synthesis_payload prompt)]
    else [].
Proof.
  unfold generate_app_code, configured.
  destruct (not_getenv (AI_PIPE_API_URL w) || not_getenv (AI_PIPE_API_KEY w));
    [reflexivity |].
  destruct (ai_pipe w _ _ _) as [e | resp]; [reflexivity |].
  cbn [call bind negb]. destruct (negb (status_code resp =? 200)); [reflexivity |].
  destruct (json resp) as [e | data]; [reflexivity |].
  cbn [lift bind]. now destruct (extract_content data) as [[] | []].
Qed.

(** X1. Whatever source the generator returns has no whitespace at either
    end, and it returns only after exactly one request that the backend
    answered with status 200 and a JSON body whose
    choices[0].message.content is a str: the source is that str, stripped. *)
Theorem generated_code_is_stripped (w : world) (prompt : value) (code : string) :
  outcome (generate_app_code w prompt) = inr code ->
  stripped code
  /\ length (trace (generate_app_code w prompt)) = 1%nat
  /\ exists resp data content,
       backend_answer w prompt = inr resp
       /\ status_code resp = 200
       /\ json resp = inr data
       /\ extract_content data = inr (VStr content)
       /\ code = strip content.
Proof.
  intros H. destruct (generate_app_code_returns w prompt code H)
    as (Hc & resp & data & content & Hr & Hs & Hj & Hd & ->).
  repeat apply conj.
  - apply strip_stripped.
  - apply strip_stripped.
  - now rewrite generate_app_code_trace, Hc.
  - exists resp, data, content. repeat split; assumption.
Qed.

Lemma generated_code_is_stripped_witness :
  outcome (generate_app_code Scenario.good (VStr "a hello-world API")) = inr "app = 1"
  /\ stripped "app = 1".
Proof.
  split; [reflexivity |].
  destruct (generated_code_is_stripped Scenario.good (VStr "a hello-world API") "app = 1"
              eq_refl) as [H _].
  exact H.
Defined.

(** X2. Three malformed answers are not turned into the generator's
    RuntimeError: when [response.json()] raises, that exception leaves the
    generator; when the decoded body is not a dict, it raises TypeError;
    when the content is there but is not a str, it raises AttributeError. *)
Theorem uncaught_backend_shapes (w : world) (prompt : value) (resp : response) :
  configured w = true ->
  backend_answer w prompt = inr resp ->
  status_code resp = 200 ->
  (forall e, json resp = inl e -> outcome (generate_app_code w prompt) = inl e)
  /\ (forall data,
        json resp = inr data ->
        match data with VDict _ => False | _ => True end ->
        outcome (generate_app_code w prompt) = inl TypeError)
  /\ (forall data content,
        json resp = inr data ->
        extract_content data = inr content ->
        match content with VStr _ => False | _ => True end ->
        outcome (generate_app_code w prompt) = inl AttributeError).
Proof.
  unfold configured, backend_answer, generate_app_code.
  intros Hc Hresp Hstatus. apply negb_true_iff in Hc. rewrite Hc, Hresp.
  apply Z.eqb_eq in Hstatus. cbn [call bind]. rewrite Hstatus. cbn [negb].
  repeat apply conj.
  - intros e ->. reflexivity.
  - intros data -> Hshape. cbn [lift bind]. destruct data; easy.
  - intros data content -> Hcontent Hshape. cbn [lift bind]. rewrite Hcontent.
    destruct content; easy.
Qed.

Lemma uncaught_backend_shapes_witness :
  outcome (generate_app_code (Scenario.answering (VList [])) VNone) = inl TypeError
  /\ outcome (generate_app_code (Scenario.answering Scenario.null_content) VNone)
     = inl AttributeError.
Proof.
  split.
  - exact (proj1 (proj2 (uncaught_backend_shapes (Scenario.answering (VList [])) VNone
                           (Scenario.reply_of (VList [])) eq_refl eq_refl eq_refl))
             (VList []) eq_refl I).
  - exact (proj2 (proj2 (uncaught_backend_shapes
                           (Scenario.answering Scenario.null_content) VNone
                           (Scenario.reply_of Scenario.null_content)
                           eq_refl eq_refl eq_refl))
             Scenario.null_content VNone eq_refl eq_refl I).
Defined.

(** X3. A variable set to the empty string counts as unset: without a
    non-empty URL and a non-empty key the generator raises ValueError and
    sends nothing.  In no case does it send more than one request, and the
    one it sends goes to the configured URL with the key as bearer token. *)
Theorem generator_needs_configuration (w : world) (prompt : value) :
  (AI_PIPE_API_URL w = None \/ AI_PIPE_API_URL w = Some EmptyString
   \/ AI_PIPE_API_KEY w = None \/ AI_PIPE_API_KEY w = Some EmptyString ->
   generate_app_code w prompt
   = ([], inl (ValueError
                 "Missing AI_PIPE_API_URL or AI_PIPE_API_KEY environment variables.")))
  /\ (trace (generate_app_code w prompt) = []
      \/ exists url key,
           AI_PIPE_API_URL w = Some url /\ AI_PIPE_API_KEY w = Some key
           /\ url <> EmptyString /\ key <> EmptyString
           /\ trace (generate_app_code w prompt)
              = [SynthesisPost url
                   [("Authorization", "Bearer " ++ key);
                    ("Content-Type", "application/json")]
                   (synthesis_payload prompt)]).
Proof.
  split.
  - intros H. apply generate_app_code_unconfigured. unfold configured.
    destruct H as [-> | [-> | [-> | ->]]]; cbn; now rewrite ?orb_true_r.
  - rewrite generate_app_code_trace. unfold configured.
    destruct (AI_PIPE_API_URL w) as [[| c url] |]; cbn; auto.
    destruct (AI_PIPE_API_KEY w) as [[| d key] |]; cbn; auto.
    right. exists (String c url), (String d key). repeat split; discriminate.
Qed.

Lemma generator_needs_configuration_witness :
  generate_app_code (Scenario.with_ai_pipe (Some EmptyString) (ai_pipe Scenario.good)
                       Scenario.good) VNone
  = ([], inl (ValueError
                "Missing AI_PIPE_API_URL or AI_PIPE_API_KEY environment variables.")).
Proof.
  apply (proj1 (generator_needs_configuration _ VNone)). right. left. reflexivity.
Defined.

(** ** More of the code: storage *)

Lemma rev_cons_head {A} (x : A) (l : list A) : exists y l', rev (x :: l) = y :: l'.
Proof.
  destruct (rev (x :: l)) as [| y l'] eqn:H; [| eauto].
  apply (f_equal (@List.length A)) in H. rewrite length_rev in H. discriminate.
Qed.

Lemma ends_with_sep_app (s : string) (c : ascii) (t : string) :
  ends_with_sep (s ++ String c t) = ends_with_sep (String c t).
Proof.
  unfold ends_with_sep. rewrite list_ascii_of_string_app, rev_app_distr.
  cbn [list_ascii_of_string].
  destruct (rev_cons_head c (list_ascii_of_string t)) as (y & l' & ->). reflexivity.
Qed.

Lemma append_assoc (s t u : string) : (s ++ t) ++ u = s ++ t ++ u.
Proof.
  induction s as [| c s IH]; cbn; [reflexivity | now rewrite IH].
Qed.

Lemma join2_absolute (path b : string) : String.prefix "/" b = true -> join2 path b = b.
Proof. unfold join2. now intros ->. Qed.

(** A relative component is appended after one separator. *)
Lemma join2_relative (path b : string) :
  String.prefix "/" b = false ->
  join2 path b = path ++ "/" ++ b \/ join2 path b = path ++ b.
Proof.
  unfold join2. intros ->. destruct (String.eqb path EmptyString || ends_with_sep path); auto.
Qed.

Lemma task_folder_absolute (w : world) (t : string) :
  String.prefix "/" t = true -> task_folder w t = t.
Proof. intros H. unfold task_folder, path_join. cbn. now apply join2_absolute. Qed.

Lemma task_folder_relative (w : world) (t : string) :
  String.prefix "/" t = false ->
  task_folder w t = path_join (parent_dir w) ["generated_app"] ++ "/" ++ t.
Proof.
  intros H. unfold task_folder, path_join. cbn [fold_left].
  assert (E : exists base, join2 (parent_dir w) "generated_app" = base ++ "generated_app").
  { destruct (join2_relative (parent_dir w) "generated_app" eq_refl) as [-> | ->].
    - exists (parent_dir w ++ "/"). now rewrite append_assoc.
    - now exists (parent_dir w). }
  destruct E as [base ->].
  unfold join2 at 1. rewrite H, ends_with_sep_app.
  replace (String.eqb (base ++ "generated_app") EmptyString) with false
    by (now destruct base).
  reflexivity.
Qed.

(** How the two steps before publication return. *)
Lemma stage_returns (w : world) (task brief : value) (folder : string) :
  outcome (stage w task brief) = inr folder ->
  exists t code,
    task = VStr t
    /\ folder = task_folder w t
    /\ outcome (generate_app_code w brief) = inr code
    /\ trace (stage w task brief)
       = (trace (generate_app_code w brief)
          ++ [Makedirs folder;
              WriteFile (path_join folder ["app.py"]) code;
              WriteFile (path_join folder ["README.md"]) (create_readme task brief);
              WriteFile (path_join folder ["LICENSE"]) license_text])%list.
Proof.
  unfold stage, save_code_to_file, add_mit_license.
  destruct (generate_app_code w brief) as [t0 [e | code]]; [discriminate |].
  destruct task as [| | | | t | |]; try discriminate.
  fold (task_folder w t). set (dir := task_folder w t).
  cbn [bind raise call_ ret outcome snd trace fst].
  destruct (makedirs w dir); [discriminate |].
  repeat match goal with
  | |- context [write_file w ?p ?c] =>
      destruct (write_file w p c); cbn [bind outcome snd]; [discriminate |]
  end.
  cbn. intros H. inversion H. exists t, code. repeat split.
Qed.

(** X4. What [save_code_to_file] returns for a str task: the one file it
    wrote is app.py in the returned folder, with the code as content.  A
    task that does not start with a slash gets the folder
    <parent>/generated_app/<task>; a task that starts with a slash is itself
    the folder, whatever the parent directory. *)
Theorem save_code_to_file_paths (w : world) (code t folder file_path : string) :
  outcome (save_code_to_file w code (VStr t)) = inr (folder, file_path) ->
  trace (save_code_to_file w code (VStr t)) = [Makedirs folder; WriteFile file_path code]
  /\ (file_path = folder ++ "/app.py" \/ file_path = folder ++ "app.py")
  /\ (String.prefix "/" t = false ->
      folder = path_join (parent_dir w) ["generated_app"] ++ "/" ++ t)
  /\ (String.prefix "/" t = true -> folder = t).
Proof.
  unfold save_code_to_file. fold (task_folder w t). set (dir := task_folder w t).
  cbn [bind call_ ret outcome snd trace fst].
  destruct (makedirs w dir); [discriminate |].
  destruct (write_file w (path_join dir ["app.py"]) code); [discriminate |].
  cbn. intros H. inversion H; subst folder file_path. repeat apply conj.
  - reflexivity.
  - unfold path_join. cbn. apply (join2_relative dir "app.py"). reflexivity.
  - apply task_folder_relative.
  - apply task_folder_absolute.
Qed.

Lemma save_code_to_file_paths_witness :
  outcome (save_code_to_file Scenario.good "app = 1" (VStr "/etc/cron.d"))
  = inr ("/etc/cron.d", "/etc/cron.d/app.py")
  /\ trace (save_code_to_file Scenario.good "app = 1" (VStr "/etc/cron.d"))
     = [Makedirs "/etc/cron.d"; WriteFile "/etc/cron.d/app.py" "app = 1"].
Proof.
  split; [reflexivity |].
  exact (proj1 (save_code_to_file_paths Scenario.good "app = 1" "/etc/cron.d"
                  "/etc/cron.d" "/etc/cron.d/app.py" eq_refl)).
Defined.

(** ** More of the code: the order of the calls *)

Lemma in_order_app (s t : list event) :
  in_order s -> in_order t ->
  (forall a b, In a s -> In b t -> (phase a <= phase b)%nat) ->
  in_order (s ++ t).
Proof.
  induction s as [| ev s IH]; cbn; [auto |].
  intros [Hev Hs] Ht H. split.
  - apply Forall_app. split; [exact Hev |].
    apply Forall_forall. intros b Hb. apply H; auto.
  - apply IH; auto.
Qed.

Lemma within_bind {A B} (lo mid hi : nat) (m : M A) (k : A -> M B) :
  (lo <= mid)%nat -> (mid <= hi)%nat ->
  within lo mid m -> (forall a, within mid hi (k a)) -> within lo hi (bind m k).
Proof.
  unfold within, trace. intros Hlo Hhi [Om Fm] Hk.
  destruct m as [t [e | a]]; cbn [bind fst] in *.
  - split; [exact Om |]. eapply Forall_impl; [| exact Fm]. cbn. lia.
  - destruct (Hk a) as [Ok Fk]. destruct (k a) as [t' r]; cbn [fst] in *. split.
    + apply in_order_app; auto. intros x y Hx Hy.
      rewrite Forall_forall in Fm, Fk. specialize (Fm x Hx). specialize (Fk y Hy). lia.
    + apply Forall_app. split; (eapply Forall_impl; [| eassumption]); cbn; lia.
Qed.

Lemma within_silent {A} (lo hi : nat) (m : M A) : trace m = [] -> within lo hi m.
Proof. unfold within. intros ->. cbn. auto. Qed.

Lemma within_one {A} (lo hi : nat) (m : M A) (ev : event) :
  trace m = [ev] -> (lo <= phase ev)%nat -> (phase ev <= hi)%nat -> within lo hi m.
Proof. unfold within. intros -> Hlo Hhi. cbn. auto. Qed.

Ltac within_leaf :=
  solve [apply within_silent; reflexivity
        | eapply within_one; [reflexivity | cbn; lia | cbn; lia]].

Ltac within_step n :=
  match goal with
  | |- within _ _ (bind _ _) =>
      apply (within_bind n n n); [lia | lia | | intros]
  | |- within _ _ (match ?x with _ => _ end) => destruct x
  | |- within _ _ (if ?b then _ else _) => destruct b
  | |- within _ _ _ => within_leaf
  end.

Lemma generate_app_code_within (w : world) (prompt : value) :
  within 0 0 (generate_app_code w prompt).
Proof. unfold generate_app_code. repeat within_step 0%nat. Qed.

Lemma save_code_to_file_within (w : world) (code : string) (task : value) :
  within 1 1 (save_code_to_file w code task).
Proof. unfold save_code_to_file. repeat within_step 1%nat. Qed.

Lemma stage_within (w : world) (task brief : value) : within 0 1 (stage w task brief).
Proof.
  unfold stage, add_mit_license.
  apply (within_bind 0 0 1); [lia | lia | apply generate_app_code_within | intros code].
  apply (within_bind 0 1 1); [lia | lia | | intros [folder file_path]].
  - destruct (save_code_to_file_within w code task) as [O F].
    split; [exact O |]. eapply Forall_impl; [| exact F]. cbn. lia.
  - repeat within_step 1%nat.
Qed.

Lemma init_git_and_push_within (w : world) (folder : string) (repo_name : value) :
  within 2 2 (init_git_and_push w folder repo_name).
Proof. unfold init_git_and_push, run. repeat within_step 2%nat. Qed.

Lemma post_loop_within (w : world) (data url : value) (rs : list Z) (n : nat) :
  within 3 3 (post_loop w rs n data url).
Proof.
  revert n. induction rs as [| r rs IH]; intros n; cbn [post_loop]; [within_leaf |].
  apply (within_bind 3 3 3); [lia | lia | | intros [e | resp]].
  - eapply within_one; [reflexivity | cbn; lia | cbn; lia].
  - repeat (apply (within_bind 3 3 3); [lia | lia | within_leaf | intros]). apply IH.
  - destruct (status_code resp =? 200); [within_leaf |].
    apply (within_bind 3 3 3); [lia | lia | within_leaf | intros]. apply IH.
Qed.

Lemma within_weaken {A} (lo hi lo' hi' : nat) (m : M A) :
  (lo' <= lo)%nat -> (hi <= hi')%nat -> within lo hi m -> within lo' hi' m.
Proof.
  unfold within. intros Hlo Hhi [O F]. split; [exact O |].
  eapply Forall_impl; [| exact F]. cbn. lia.
Qed.

Lemma generate_app_within (w : world) (req : request) : within 0 3 (generate_app w req).
Proof.
  unfold generate_app. destruct req as [e | data]; [within_leaf |].
  apply (within_bind 0 0 3); [lia | lia | within_leaf | intros [f |]]; [within_leaf |].
  apply (within_bind 0 0 3); [lia | lia | within_leaf | intros secret].
  destruct (negb (eq_getenv secret (STUDENT_SECRET w))); [within_leaf |].
  apply (within_bind 0 0 3); [lia | lia | within_leaf | intros task].
  apply (within_bind 0 0 3); [lia | lia | within_leaf | intros brief].
  apply (within_bind 0 0 3); [lia | lia | apply generate_app_code_within | intros code].
  apply (within_bind 0 1 3); [lia | lia | | intros [folder file_path]].
  { apply (within_weaken 1 1); [lia | lia | apply save_code_to_file_within]. }
  apply (within_bind 1 1 3); [lia | lia | within_leaf | intros _].
  apply (within_bind 1 1 3); [lia | lia | unfold add_mit_license; within_leaf | intros _].
  apply (within_bind 1 2 3); [lia | lia | | intros [[repo_url commit_sha] pages_url]].
  { apply (within_weaken 2 2); [lia | lia | apply init_git_and_push_within]. }
  do 5 (apply (within_bind 2 2 3); [lia | lia | within_leaf | intros]).
  apply (within_bind 2 3 3); [lia | lia | | intros success].
  { apply (within_weaken 3 3); [lia | lia | apply post_loop_within]. }
  destruct (negb success); within_leaf.
Qed.

Lemma files_app (s t : list event) : files (s ++ t) = (files s ++ files t)%list.
Proof. apply flat_map_app. Qed.

(** Calls outside the storage step write no file. *)
Lemma files_other_phase (t : list event) :
  Forall (fun ev => phase ev <> 1%nat) t -> files t = [].
Proof.
  unfold files. induction 1 as [| ev t Hev _ IH]; [reflexivity |].
  cbn [flat_map]. rewrite IH. destruct ev; cbn in *; congruence.
Qed.

Lemma within_files {A} (k : nat) (m : M A) :
  k <> 1%nat -> within k k m -> files (trace m) = [].
Proof.
  intros Hk [_ F]. apply files_other_phase.
  eapply Forall_impl; [| exact F]. cbn. lia.
Qed.

(** X5. In every run of the handler the calls come in the order of the
    pipeline: the request to the code-generation backend, then the
    directory and the files, then the hosting backend and git, then the
    POSTs, prints and sleeps of the dispatcher; no call of an earlier step
    follows a call of a later one. *)
Theorem calls_in_pipeline_order (w : world) (req : request) :
  in_order (trace (generate_app w req)).
Proof. apply generate_app_within. Qed.

(** X6. When synthesis or storage raises, the exception leaves the handler
    and nothing was published or notified: no call to the hosting backend,
    no git command, no POST to the callback. *)
Theorem early_failure_publishes_nothing (w : world) (items : list (string * value))
  (e : exn) :
  all_present items = true ->
  secret_matches w items = true ->
  outcome (stage w (field items "task") (field items "brief")) = inl e ->
  outcome (generate_app w (Body (VDict items))) = inl e
  /\ Forall (fun ev => (phase ev <= 1)%nat) (trace (generate_app w (Body (VDict items)))).
Proof.
  intros Hp Hs Hstage. rewrite (generate_app_stage_raises w items e Hp Hs Hstage).
  split; [reflexivity |]. cbn [trace fst].
  destruct (stage_within w (field items "task") (field items "brief")) as [_ F].
  eapply Forall_impl; [| exact F]. cbn. lia.
Qed.

Lemma early_failure_publishes_nothing_witness :
  outcome (generate_app Scenario.read_only Scenario.demo)
  = inl (Raised "OSError" "read-only file system")
  /\ Forall (fun ev => (phase ev <= 1)%nat)
       (trace (generate_app Scenario.read_only Scenario.demo)).
Proof.
  apply (early_failure_publishes_nothing Scenario.read_only Scenario.demo_items);
    reflexivity.
Defined.

Lemma Forall_trace_bind {A B} (P : event -> Prop) (m : M A) (k : A -> M B) :
  Forall P (trace m) -> (forall a, Forall P (trace (k a))) -> Forall P (trace (bind m k)).
Proof.
  unfold trace. destruct m as [t [e | a]]; cbn [bind fst]; intros Hm Hk; [exact Hm |].
  specialize (Hk a). destruct (k a) as [t' r]; cbn [fst] in *.
  apply Forall_app. now split.
Qed.

(** Every git command of publication runs in the folder it was given. *)
Lemma init_git_and_push_runs_in (w : world) (folder : string) (repo_name : value) :
  Forall (runs_in folder) (trace (init_git_and_push w folder repo_name)).
Proof.
  unfold init_git_and_push, run.
  repeat (apply Forall_trace_bind; [| intros]);
    try (repeat constructor; reflexivity).
Qed.

(** Outside publication no subprocess is run. *)
Lemma within_runs_in {A} (k : nat) (folder : string) (m : M A) :
  k <> 2%nat -> within k k m -> Forall (runs_in folder) (trace m).
Proof.
  intros Hk [_ F]. eapply Forall_impl; [| exact F].
  intros [] H; cbn in *; try exact I. lia.
Qed.

(** X7. On a run that gets as far as publication, the handler has itself
    created the folder of the task and written, with [open], exactly three
    files into it, in this order: app.py with the generated source,
    README.md with the text built from task and brief, LICENSE with the
    fixed text; no later step of the handler opens a file.  The git commands
    of publication all run with that folder as working directory: what they
    write there is theirs and is not counted here. *)
Theorem handler_writes_three_files (w : world) (items : list (string * value))
  (folder : string) :
  all_present items = true ->
  secret_matches w items = true ->
  outcome (stage w (field items "task") (field items "brief")) = inr folder ->
  exists t code,
    field items "task" = VStr t
    /\ folder = task_folder w t
    /\ outcome (generate_app_code w (field items "brief")) = inr code
    /\ In (Makedirs folder) (trace (generate_app w (Body (VDict items))))
    /\ files (trace (generate_app w (Body (VDict items))))
       = [(path_join folder ["app.py"], code);
          (path_join folder ["README.md"],
           create_readme (field items "task") (field items "brief"));
          (path_join folder ["LICENSE"], license_text)]
    /\ Forall (runs_in folder) (trace (generate_app w (Body (VDict items)))).
Proof.
  intros Hp Hs Hstage.
  destruct (stage_returns _ _ _ _ Hstage) as (t & code & Htask & Hfolder & Hcode & Htrace).
  assert (Hrun : exists rest,
            trace (generate_app w (Body (VDict items)))
            = (trace (stage w (field items "task") (field items "brief")) ++ rest)%list
            /\ files rest = []
            /\ Forall (runs_in folder) rest).
  { pose proof (within_files 2 _ ltac:(lia)
                  (init_git_and_push_within w folder (field items "task"))) as Hinit.
    pose proof (init_git_and_push_runs_in w folder (field items "task")) as Hcwd.
    destruct (outcome (init_git_and_push w folder (field items "task")))
      as [e | [[r c] p]] eqn:Hpub.
    - rewrite (generate_app_publication_raises w items folder e Hp Hs Hstage Hpub).
      eexists. split; [reflexivity |]. split; [exact Hinit | exact Hcwd].
    - destruct (generate_app_published w items folder r c p Hp Hs Hstage Hpub)
        as (success & _ & ->).
      eexists. split; [reflexivity |]. split.
      + rewrite files_app, Hinit.
        apply (within_files 3 _ ltac:(lia) (post_loop_within w _ _ retries 0)).
      + apply Forall_app. split; [exact Hcwd |].
        apply (within_runs_in 3 folder _ ltac:(lia) (post_loop_within w _ _ retries 0)). }
  destruct Hrun as (rest & -> & Hrest & Hcwd).
  exists t, code. repeat apply conj; try assumption.
  - rewrite Htrace. apply in_or_app. left. apply in_or_app. right. now left.
  - rewrite files_app, Hrest, Htrace, files_app.
    now rewrite (within_files 0 _ ltac:(lia) (generate_app_code_within w _)).
  - apply Forall_app. split; [| exact Hcwd].
    rewrite Htrace. apply Forall_app. split.
    + apply (within_runs_in 0 folder _ ltac:(lia) (generate_app_code_within w _)).
    + repeat constructor.
Qed.

Lemma handler_writes_three_files_witness :
  map fst (files (trace (generate_app Scenario.pygithub Scenario.demo)))
  = ["/srv/generated_app/demo1/app.py"; "/srv/generated_app/demo1/README.md";
     "/srv/generated_app/demo1/LICENSE"]
  /\ Forall (runs_in "/srv/generated_app/demo1")
       (trace (generate_app Scenario.pygithub Scenario.demo)).
Proof.
  destruct (handler_writes_three_files Scenario.pygithub Scenario.demo_items
              "/srv/generated_app/demo1" eq_refl eq_refl eq_refl)
    as (t & code & _ & _ & _ & _ & H & Hcwd).
  fold Scenario.demo in H, Hcwd. rewrite H. split; [reflexivity | exact Hcwd].
Defined.

(** ** More of the code: publication *)

(** X8. The exit status of a git command is never looked at: when the
    repository is created, the six git commands can be run (whatever status
    they exit with) and the site is enabled, publication makes exactly the
    eight calls of [publication_calls] in that order and returns the clone
    URL, the branch name "main" and the site URL built from the account
    name and the repository name. *)
Theorem publication_ignores_exit_status (w : world) (folder : string) (repo_name : value)
  (clone_url : string) :
  create_repo w (GITHUB_TOKEN w) repo_name = inr clone_url ->
  (forall argv, exists status, subprocess_run w argv folder = inr status) ->
  repo_edit w clone_url = None ->
  init_git_and_push w folder repo_name
  = (publication_calls (GITHUB_TOKEN w) repo_name folder clone_url,
     inr (clone_url, "main", site_url w repo_name)).
Proof.
  intros Hcreate Hrun Hedit. unfold init_git_and_push, run. rewrite Hcreate.
  cbn [call bind].
  repeat match goal with
  | |- context [subprocess_run w ?argv folder] =>
      let status := fresh "status" in
      let H := fresh "H" in
      destruct (Hrun argv) as [status H]; rewrite H; clear H; cbn [call bind ret app]
  end.
  rewrite Hedit. reflexivity.
Qed.

Lemma publication_ignores_exit_status_witness :
  init_git_and_push Scenario.push_rejected "/srv/generated_app/demo1" (VStr "demo1")
  = (publication_calls (Some "t0ken") (VStr "demo1") "/srv/generated_app/demo1"
       "https://github.com/user/demo1.git",
     inr ("https://github.com/user/demo1.git", "main", "https://user.github.io/demo1/")).
Proof.
  apply (publication_ignores_exit_status Scenario.push_rejected).
  - reflexivity.
  - intros argv. cbn. destruct (Scenario.is_push argv); eauto.
  - reflexivity.
Defined.

Ltac stopped_after n :=
  exists n; split; [lia |]; split; [reflexivity |]; split;
  [cbn [firstn Nat.sub]; repeat constructor; cbn [raised_by]
  | cbn [nth Nat.sub publication_calls raised_by]];
  repeat match goal with
  | H : _ = _ |- _ => rewrite H
  end; auto.

(** X9. Publication stops at the first call that raises, with the
    exception of that call.  When the creation of the repository raises (a
    name that is taken, a token that is refused), the exception leaves
    [init_git_and_push] and no git command is run.  When the repository is
    created, the calls made are the first n of [publication_calls] for some
    n: none of the first n-1 raised, and either the n-th raised, and its
    exception is the outcome, or n is 8 and the result is returned.  So a
    git command that cannot be run ends publication with its exception, and
    the site is never enabled unless [git push] was run and returned. *)
Theorem publication_stops_at_first_exception (w : world) (folder : string)
  (repo_name : value) :
  (forall e,
     create_repo w (GITHUB_TOKEN w) repo_name = inl e ->
     init_git_and_push w folder repo_name = ([CreateRepo (GITHUB_TOKEN w) repo_name], inl e))
  /\ (forall clone_url,
        create_repo w (GITHUB_TOKEN w) repo_name = inr clone_url ->
        let calls := publication_calls (GITHUB_TOKEN w) repo_name folder clone_url in
        exists n,
          (1 <= n <= 8)%nat
          /\ trace (init_git_and_push w folder repo_name) = firstn n calls
          /\ Forall (fun ev => raised_by w ev = None) (firstn (n - 1) calls)
          /\ match raised_by w (nth (n - 1) calls (Sleep 0)) with
             | Some e => outcome (init_git_and_push w folder repo_name) = inl e
             | None =>
                 n = 8%nat
                 /\ outcome (init_git_and_push w folder repo_name)
                    = inr (clone_url, "main", site_url w repo_name)
             end).
Proof.
  split.
  - intros e He. unfold init_git_and_push. now rewrite He.
  - intros clone_url Hcreate calls. subst calls.
    unfold init_git_and_push, run, publication_calls. rewrite Hcreate.
    cbn [call bind].
    destruct (subprocess_run w ["git"; "init"] folder) eqn:H1;
      cbn [call bind ret app trace outcome fst snd]; [stopped_after 2%nat |].
    destruct (subprocess_run w ["git"; "add"; "."] folder) eqn:H2;
      cbn [call bind ret app trace outcome fst snd]; [stopped_after 3%nat |].
    destruct (subprocess_run w ["git"; "commit"; "-m"; "Initial commit"] folder) eqn:H3;
      cbn [call bind ret app trace outcome fst snd]; [stopped_after 4%nat |].
    destruct (subprocess_run w ["git"; "branch"; "-M"; "main"] folder) eqn:H4;
      cbn [call bind ret app trace outcome fst snd]; [stopped_after 5%nat |].
    destruct (subprocess_run w ["git"; "remote"; "add"; "origin"; clone_url] folder) eqn:H5;
      cbn [call bind ret app trace outcome fst snd]; [stopped_after 6%nat |].
    destruct (subprocess_run w ["git"; "push"; "-u"; "origin"; "main"] folder) eqn:H6;
      cbn [call bind ret app trace outcome fst snd]; [stopped_after 7%nat |].
    destruct (repo_edit w clone_url) eqn:H7;
      cbn [call_ bind ret app trace outcome fst snd]; stopped_after 8%nat.
Qed.

Lemma publication_stops_at_first_exception_witness :
  init_git_and_push Scenario.collision "/srv/generated_app/demo1" (VStr "demo1")
  = ([CreateRepo (Some "t0ken") (VStr "demo1")],
     inl (Raised "GithubException" "name already exists"))
  /\ exists n,
       (1 <= n <= 8)%nat
       /\ trace (init_git_and_push Scenario.push_raises "/srv/generated_app/demo1"
                   (VStr "demo1"))
          = firstn n (publication_calls (Some "t0ken") (VStr "demo1")
                        "/srv/generated_app/demo1" "https://github.com/user/demo1.git").
Proof.
  split.
  - apply (proj1 (publication_stops_at_first_exception Scenario.collision
                    "/srv/generated_app/demo1" (VStr "demo1"))).
    reflexivity.
  - destruct (proj2 (publication_stops_at_first_exception Scenario.push_raises
                       "/srv/generated_app/demo1" (VStr "demo1"))
                "https://github.com/user/demo1.git" eq_refl)
      as (n & Hn & Htrace & _).
    exists n. split; assumption.
Defined.

(** ** More of the code: the dispatcher *)

Lemma sleeps_attempts (url data : value) (delays : list Z) :
  sleeps (flat_map (fun r => [CallbackPost url data; Sleep r]) delays
          ++ [CallbackPost url data]) = delays.
Proof.
  unfold sleeps. induction delays as [| r delays IH]; cbn; [reflexivity |].
  now f_equal.
Qed.

Lemma callback_posts_attempts (url data : value) (delays : list Z) :
  length (callback_posts (flat_map (fun r => [CallbackPost url data; Sleep r]) delays
                          ++ [CallbackPost url data])) = S (length delays).
Proof.
  unfold callback_posts. induction delays as [| r delays IH]; cbn; [reflexivity |].
  now f_equal.
Qed.

(** The loop ends at the first attempt that does not fail. *)
Lemma post_loop_first_success (w : world) (data url : value) (k : nat) :
  forall (rs : list Z) (n : nat),
    (k < length rs)%nat ->
    (forall i, (i < k)%nat -> failed (callback w (n + i) url data) = true) ->
    failed (callback w (n + k) url data) = false ->
    outcome (post_loop w rs n data url) = inr true
    /\ silent (trace (post_loop w rs n data url)) = attempts (CallbackPost url data) k rs.
Proof.
  induction k as [| k IH]; intros [| r rs] n Hlen Hfail Hok; cbn in Hlen; try lia.
  - rewrite Nat.add_0_r in Hok. now rewrite (post_loop_succeeded w data url r rs n Hok).
  - assert (H0 : failed (callback w n url data) = true).
    { rewrite <- (Nat.add_0_r n). apply Hfail. lia. }
    destruct (post_loop_failed w data url r rs n H0) as [-> ->].
    destruct (IH rs (S n)) as [-> ->].
    + lia.
    + intros i Hi. replace (S n + i)%nat with (n + S i)%nat by lia. apply Hfail. lia.
    + now replace (S n + k)%nat with (n + S k)%nat by lia.
    + split; reflexivity.
Qed.

(** Which attempt, if any, is the first that does not fail. *)
Lemma first_success_or_none (f : nat -> bool) :
  (exists k, (k < 4)%nat /\ (forall i, (i < k)%nat -> f i = true) /\ f k = false)
  \/ (forall n, (n < 4)%nat -> f n = true).
Proof.
  destruct (f 0%nat) eqn:H0; [| left; exists 0%nat; repeat split; [lia | lia | exact H0]].
  destruct (f 1%nat) eqn:H1;
    [| left; exists 1%nat; repeat split; [lia | | exact H1];
       intros [| i] Hi; [exact H0 | lia]].
  destruct (f 2%nat) eqn:H2;
    [| left; exists 2%nat; repeat split; [lia | | exact H2];
       intros [| [| i]] Hi; [exact H0 | exact H1 | lia]].
  destruct (f 3%nat) eqn:H3;
    [| left; exists 3%nat; repeat split; [lia | | exact H3];
       intros [| [| [| i]]] Hi; [exact H0 | exact H1 | exact H2 | lia]].
  right. intros [| [| [| [| n]]]] Hn; [exact H0 | exact H1 | exact H2 | exact H3 | lia].
Qed.

Lemma post_loop_prints (w : world) (data url : value) (rs : list Z) (n : nat) :
  prints (trace (post_loop w rs n data url))
  = raised_at w data url
      (seq n (length (callback_posts (trace (post_loop w rs n data url))))).
Proof.
  revert n. unfold prints, callback_posts, raised_at.
  induction rs as [| r rs IH]; intros n; cbn [post_loop]; [reflexivity |].
  specialize (IH (S n)).
  destruct (callback w n url data) as [e | resp] eqn:Hn; cbn [try call bind fst snd].
  - destruct (post_loop w rs (S n) data url) as [t o]; cbn in *.
    now rewrite Hn, IH.
  - destruct (status_code resp =? 200); cbn; [now rewrite Hn |].
    destruct (post_loop w rs (S n) data url) as [t o]; cbn in *.
    now rewrite Hn, IH.
Qed.

(** X10. When the callback first answers 200 at attempt k (counting from
    0, k below 4), the dispatcher returns [True] after exactly k+1 POSTs, has
    slept the first k delays of 1, 2, 4, 8 (none at all when the first POST
    succeeds), and makes no call after the successful POST. *)
Theorem first_success_ends_retries (w : world) (data url : value) (k : nat) :
  (k < 4)%nat ->
  (forall i, (i < k)%nat -> failed (callback w i url data) = true) ->
  failed (callback w k url data) = false ->
  let run := post_to_evaluation_url w data url in
  outcome run = inr true
  /\ silent (trace run) = attempts (CallbackPost url data) k retries
  /\ sleeps (trace run) = firstn k retries
  /\ length (callback_posts (trace run)) = S k.
Proof.
  intros Hk Hfail Hok run. subst run. unfold post_to_evaluation_url.
  destruct (post_loop_first_success w data url k retries 0) as [O T]; auto.
  rewrite <- callback_posts_silent, <- sleeps_silent, T, O. unfold attempts.
  rewrite sleeps_attempts, callback_posts_attempts, length_firstn.
  repeat split. cbn [retries length]. lia.
Qed.

Lemma first_success_ends_retries_witness :
  outcome (post_to_evaluation_url (Scenario.from_attempt 0) VNone VNone) = inr true
  /\ sleeps (trace (post_to_evaluation_url (Scenario.from_attempt 0) VNone VNone)) = []
  /\ sleeps (trace (post_to_evaluation_url (Scenario.from_attempt 3) VNone VNone))
     = [1; 2; 4].
Proof.
  destruct (first_success_ends_retries (Scenario.from_attempt 0) VNone VNone 0)
    as (O0 & _ & S0 & _); [lia | intros i Hi; lia | reflexivity |].
  destruct (first_success_ends_retries (Scenario.from_attempt 3) VNone VNone 3)
    as (_ & _ & S3 & _);
    [lia | intros [| [| [| i]]] Hi; [reflexivity .. | lia] | reflexivity |].
  repeat split; assumption.
Defined.

(** X11. Whatever the callback does, the dispatcher raises nothing, posts
    at most four times, sleeps an initial part of the delays 1, 2, 4, 8, and
    returns [True] exactly when one of its first four attempts was answered
    with status 200. *)
Theorem dispatcher_reports_truthfully (w : world) (data url : value) :
  let run := post_to_evaluation_url w data url in
  (exists success, outcome run = inr success)
  /\ (length (callback_posts (trace run)) <= 4)%nat
  /\ (exists k, (k <= 4)%nat /\ sleeps (trace run) = firstn k retries)
  /\ (outcome run = inr true
      <-> exists k, (k < 4)%nat /\ failed (callback w k url data) = false).
Proof.
  cbv zeta.
  destruct (first_success_or_none (fun n => failed (callback w n url data)))
    as [(k & Hk & Hfail & Hok) | Hall].
  - destruct (post_loop_first_success w data url k retries 0) as [O T]; auto.
    fold (post_to_evaluation_url w data url) in O, T.
    rewrite <- callback_posts_silent, <- sleeps_silent, T, O. unfold attempts.
    rewrite sleeps_attempts, callback_posts_attempts, length_firstn.
    repeat apply conj.
    + eauto.
    + cbn [retries length]. lia.
    + exists k. split; [lia | reflexivity].
    + intros _. eauto.
    + reflexivity.
  - destruct (post_to_evaluation_url_exhausted w data url Hall) as [O T].
    rewrite <- callback_posts_silent, <- sleeps_silent, T, O.
    repeat apply conj.
    + eauto.
    + cbn. lia.
    + exists 4%nat. split; [lia | reflexivity].
    + discriminate.
    + intros (k & Hk & Hok). rewrite (Hall k Hk) in Hok. discriminate.
Qed.

Lemma dispatcher_reports_truthfully_witness :
  outcome (post_to_evaluation_url (Scenario.from_attempt 1) VNone VNone) = inr true.
Proof.
  apply (proj2 (proj2 (proj2 (proj2 (dispatcher_reports_truthfully
                                       (Scenario.from_attempt 1) VNone VNone))))).
  exists 1%nat. split; [lia | reflexivity].
Defined.

(** X12. Every exception that a POST to the callback raises is caught and
    printed, once and in the order of the attempts: the exceptions printed
    in a run are those of the attempts the run made. *)
Theorem swallowed_exceptions_are_printed (w : world) (data url : value) :
  let run := post_to_evaluation_url w data url in
  prints (trace run)
  = raised_at w data url (seq 0 (length (callback_posts (trace run)))).
Proof. apply post_loop_prints. Qed.

(** ** More of the code: the handler *)

Lemma first_missing_answers (data : value) (fields : list string) :
  (forall f, exists b, contains f data = inr b) ->
  exists o, first_missing fields data = inr o.
Proof.
  intros H. induction fields as [| f fields IH]; cbn; [eauto |].
  destruct (H f) as [[|] ->]; eauto.
Qed.

Lemma lookup_has_key (k : string) (items : list (string * value)) (v : value) :
  lookup k items = Some v -> has_key k items = true.
Proof.
  unfold lookup, has_key. induction items as [| [k' v'] items IH]; cbn; [discriminate |].
  destruct (String.eqb k' k); cbn; auto.
Qed.

(** The steps before publication, for a task that is not a str. *)
Lemma stage_task_not_str (w : world) (task brief : value) (code : string) :
  match task with VStr _ => False | _ => True end ->
  outcome (generate_app_code w brief) = inr code ->
  stage w task brief = (trace (generate_app_code w brief), inl TypeError).
Proof.
  intros Htask Hcode. unfold stage. rewrite (bind_return _ _ _ Hcode).
  destruct task; try contradiction; cbn; now rewrite app_nil_r.
Qed.

(** A dispatcher that returns [True] was answered 200 at one of its
    attempts, after a POST of the notice. *)
Lemma post_to_evaluation_url_true (w : world) (data url : value) :
  outcome (post_to_evaluation_url w data url) = inr true ->
  (exists k, (k < 4)%nat /\ failed (callback w k url data) = false)
  /\ In (url, data) (callback_posts (trace (post_to_evaluation_url w data url))).
Proof.
  intros Htrue.
  destruct (first_success_or_none (fun n => failed (callback w n url data)))
    as [(k & Hk & Hfail & Hok) | Hall].
  - split; [eauto |].
    destruct (post_loop_first_success w data url k retries 0) as [_ T]; auto.
    fold (post_to_evaluation_url w data url) in T.
    rewrite <- callback_posts_silent, T. unfold attempts.
    rewrite callback_posts_app. apply in_or_app. right. now left.
  - destruct (post_to_evaluation_url_exhausted w data url Hall) as [O _].
    rewrite O in Htrue. discriminate.
Qed.

(** X13. A body that is valid JSON but not an object never reaches the
    pipeline: the handler makes no call, and it either raises TypeError
    (null, a boolean, a number; a list or a string that holds all seven
    names) or answers that a field is missing. *)
Theorem non_object_body_stops_at_validation (w : world) (data : value) :
  match data with VDict _ => False | _ => True end ->
  trace (generate_app w (Body data)) = []
  /\ (outcome (generate_app w (Body data)) = inl TypeError
      \/ exists f,
           In f required_fields
           /\ outcome (generate_app w (Body data)) = inr (error ("Missing field: " ++ f))).
Proof.
  intros Hshape.
  destruct data as [| b | n | r | s | l | items]; try contradiction;
    try (split; [reflexivity | left; reflexivity]).
  - destruct (first_missing_answers (VStr s) required_fields) as [[f |] Hfm];
      [cbn; eauto | |]; unfold generate_app; rewrite Hfm.
    + split; [reflexivity |]. right. exists f.
      split; [eapply first_missing_in; eassumption | reflexivity].
    + split; [reflexivity | left; reflexivity].
  - destruct (first_missing_answers (VList l) required_fields) as [[f |] Hfm];
      [cbn; eauto | |]; unfold generate_app; rewrite Hfm.
    + split; [reflexivity |]. right. exists f.
      split; [eapply first_missing_in; eassumption | reflexivity].
    + split; [reflexivity | left; reflexivity].
Qed.

Lemma non_object_body_stops_at_validation_witness :
  generate_app Scenario.good
    (Body (VList (map VStr required_fields))) = ([], inl TypeError)
  /\ generate_app Scenario.good (Body (VStr "email secret"))
     = ([], inr (error "Missing field: task")).
Proof.
  split; [| reflexivity].
  destruct (non_object_body_stops_at_validation Scenario.good
              (VList (map VStr required_fields)) I) as [Ht Ho].
  destruct Ho as [Ho | (f & _ & Ho)]; [| discriminate Ho].
  destruct (generate_app Scenario.good (Body (VList (map VStr required_fields)))) as [t o].
  cbn [trace outcome fst snd] in Ht, Ho. now subst.
Defined.

(** X14. Validation does not look at the types of the fields: a request
    that passes it with a task that is not a string (a number, null, a
    list) still has its brief sent to the code-generation backend, and only
    then the handler raises TypeError, before anything is written. *)
Theorem task_type_checked_after_synthesis (w : world) (items : list (string * value))
  (code : string) :
  all_present items = true ->
  secret_matches w items = true ->
  match field items "task" with VStr _ => False | _ => True end ->
  outcome (generate_app_code w (field items "brief")) = inr code ->
  generate_app w (Body (VDict items))
  = (trace (generate_app_code w (field items "brief")), inl TypeError)
  /\ length (trace (generate_app w (Body (VDict items)))) = 1%nat.
Proof.
  intros Hp Hs Htask Hcode.
  pose proof (stage_task_not_str w _ _ code Htask Hcode) as Hstage.
  assert (Hrun : generate_app w (Body (VDict items))
                 = (trace (generate_app_code w (field items "brief")), inl TypeError)).
  { rewrite (generate_app_stage_raises w items TypeError Hp Hs); now rewrite Hstage. }
  split; [exact Hrun |]. rewrite Hrun. cbn [trace fst].
  destruct (generate_app_code_returns w _ code Hcode) as [Hc _].
  now rewrite generate_app_code_trace, Hc.
Qed.

Lemma task_type_checked_after_synthesis_witness :
  outcome (generate_app Scenario.good (Body (VDict Scenario.numeric_task_items)))
  = inl TypeError
  /\ length (trace (generate_app Scenario.good (Body (VDict Scenario.numeric_task_items))))
     = 1%nat.
Proof.
  destruct (task_type_checked_after_synthesis Scenario.good Scenario.numeric_task_items
              "app = 1" eq_refl eq_refl I eq_refl) as [Hrun Hlen].
  split; [now rewrite Hrun | exact Hlen].
Defined.

(** X15. The handler reads nothing but the seven required fields: two
    objects in which the seven fields are present with the same values get
    the same run, call for call, and the same response, whatever other keys
    they hold and in whatever order. *)
Theorem only_required_fields_matter (w : world) (items items' : list (string * value)) :
  all_present items = true ->
  (forall f, In f required_fields -> lookup f items' = lookup f items) ->
  generate_app w (Body (VDict items')) = generate_app w (Body (VDict items)).
Proof.
  intros Hp Hsame.
  assert (Hp' : all_present items' = true).
  { unfold all_present. apply forallb_forall. intros f Hf.
    destruct (has_key_lookup f items (all_present_has_key items f Hp Hf)) as [v Hv].
    apply (lookup_has_key f items' v). now rewrite Hsame. }
  assert (Hfield : forall f, In f required_fields -> field items' f = field items f).
  { intros f Hf. unfold field. now rewrite Hsame. }
  assert (Hs : secret_matches w items' = secret_matches w items).
  { unfold secret_matches. now rewrite Hsame by (cbn; tauto). }
  destruct (secret_matches w items) eqn:Hm.
  - rewrite (generate_app_accepted w items' Hp' Hs), (generate_app_accepted w items Hp Hm).
    unfold notice. now rewrite !Hfield by (cbn; tauto).
  - now rewrite (generate_app_wrong_secret w items' Hp' Hs),
      (generate_app_wrong_secret w items Hp Hm).
Qed.

Lemma only_required_fields_matter_witness :
  generate_app Scenario.good (Body (VDict Scenario.shuffled_items))
  = generate_app Scenario.good Scenario.demo.
Proof.
  apply (only_required_fields_matter Scenario.good Scenario.demo_items
           Scenario.shuffled_items eq_refl).
  intros f [<- | [<- | [<- | [<- | [<- | [<- | [<- | []]]]]]]]; reflexivity.
Defined.

(** X16. The response of a completed run is returned only after the
    callback has answered status 200 to a POST of the notice, and it agrees
    with that notice: the repo_url of both is the clone URL the hosting
    backend gave for the repository named after the task, the pages_url of
    both is the site URL of that task, and the notice names "main" as
    commit. *)
Theorem completed_means_notified (w : world) (req : request) (repo_url pages_url : string) :
  outcome (generate_app w req) = inr (completed repo_url pages_url) ->
  exists items,
    req = Body (VDict items)
    /\ create_repo w (GITHUB_TOKEN w) (field items "task") = inr repo_url
    /\ pages_url = site_url w (field items "task")
    /\ In (field items "evaluation_url", notice items repo_url "main" pages_url)
         (callback_posts (trace (generate_app w req)))
    /\ exists k,
         (k < 4)%nat
         /\ failed (callback w k (field items "evaluation_url")
                      (notice items repo_url "main" pages_url)) = false.
Proof.
  intros Hout.
  destruct (generate_app_ending w req)
    as [msg _ Hrun | e He _ | items folder r c p success -> _ _ _ Hpub Hpost Hrun].
  - rewrite Hrun in Hout. discriminate.
  - congruence.
  - rewrite Hrun in Hout. destruct success; [| discriminate].
    unfold completed in Hout. injection Hout as -> ->.
    destruct (init_git_and_push_result _ _ _ _ _ _ Hpub) as (Hcreate & -> & Hpages).
    destruct (post_to_evaluation_url_true w _ _ Hpost) as [Hk Hin].
    exists items. repeat apply conj; auto.
    rewrite Hrun. cbn [trace fst]. rewrite !callback_posts_app.
    apply in_or_app. right. apply in_or_app. now right.
Qed.

Lemma completed_means_notified_witness :
  exists items,
    Scenario.demo = Body (VDict items)
    /\ create_repo Scenario.good (GITHUB_TOKEN Scenario.good) (field items "task")
       = inr "https://github.com/user/demo1.git".
Proof.
  destruct (completed_means_notified Scenario.good Scenario.demo
              "https://github.com/user/demo1.git" "https://user.github.io/demo1/" eq_refl)
    as (items & Hreq & Hcreate & _).
  exists items. split; assumption.
Defined.
